(** * Real-time emotion detector: the capture / classify / render loop

    A shallow embedding of [main.py]: the [BoundingBox] geometry, the three
    overlay drawing functions and [RealTimeEmotionDetector.execute], followed
    by the properties of the cadence, the pairing, the change log and the
    exit paths.

    Conventions of the embedding.
    - Python integers are [Z].  The one float of the program,
      [frame_period_s], enters [execute] as a rational [q] that stands
      for the binary64 product [frame_period_s * 100]: [q * 100] is the
      value of that rounded product ([model_period] computes [q] from the
      float).  The remainder [frame_cnt % d] is exact in binary64, so the
      test [frame_cnt % (frame_period_s * 100) == 0] is a divisibility
      test on that value.  For the default 0.75 the product is exactly
      75 and [q] is 3/4; for a period such as 0.07 the product is not a
      whole number and statements about a period of [P] ticks do not
      apply.
    - A frame is a buffer: the captured picture (an opaque number) and the
      list of drawing commands applied to it so far, oldest first.  The
      local [frame] is [None] when [VideoCapture.read] delivered nothing.
    - OpenCV is outside the repository.  Its calls are modelled by what they
      do to the buffer.  [cvtColor] and [imshow] raise when handed [None]
      in place of an image, as the Python bindings do; the drawing
      primitives are modelled as raising there too, whereas the bindings
      return without drawing, the tick then failing at [imshow].
      Coordinates are taken to fit a C [int].
    - The effects of [execute] (locals, the frame buffer, calls into the
      collaborators) are threaded through a state-and-exception monad. *)

From Stdlib Require Import ZArith QArith List String Ascii Bool Lia.
From Stdlib Require Import SpecFloat.
Import ListNotations.
Open Scope string_scope.
Open Scope list_scope.
Open Scope Z_scope.

(** ** State-and-exception monad *)

Inductive Error : Type :=
| ZeroDivisionError   (* float modulo by zero *)
| Cv2Error.           (* cv2.error / TypeError raised by an OpenCV call *)

Inductive Result (S A : Type) : Type :=
| Ok (a : A) (s : S)
| Raise (e : Error) (s : S).

Arguments Ok {S A} a s.
Arguments Raise {S A} e s.

Definition M (S A : Type) : Type := S -> Result S A.

Definition ret {S A} (a : A) : M S A := fun s => Ok a s.

Definition bind {S A B} (m : M S A) (k : A -> M S B) : M S B :=
  fun s => match m s with
           | Ok a s' => k a s'
           | Raise e s' => Raise e s'
           end.

Definition raise {S A} (e : Error) : M S A := fun s => Raise e s.
Definition gets {S A} (f : S -> A) : M S A := fun s => Ok (f s) s.
Definition modify {S} (f : S -> S) : M S unit := fun s => Ok tt (f s).

Notation "x <- m ;; k" := (bind m (fun x => k))
  (at level 61, m at next level, right associativity).
Notation "m ;; k" := (bind m (fun _ => k))
  (at level 61, right associativity).

(** A Python [for] statement whose body runs in the monad. *)
Fixpoint for_each {S A} (xs : list A) (body : A -> M S unit) : M S unit :=
  match xs with
  | [] => ret tt
  | x :: rest => body x ;; for_each rest body
  end.

(** ** Constants of [main.py] *)

Definition Color : Type := (Z * Z * Z)%type.
Definition Point : Type := (Z * Z)%type.

Definition WHITE_COLOR : Color := (255, 255, 255).
Definition GREEN_COLOR : Color := (0, 255, 0).
Definition BLUE_COLOR : Color := (255, 255, 104).

Inductive Font : Type := QT_FONT_NORMAL.
Inductive LineType : Type := LINE_AA.

Definition FONT : Font := QT_FONT_NORMAL.

Definition FRAME_WIDTH : Z := 640.
Definition FRAME_HEIGHT : Z := 490.

(** ** Images *)

(** One call of an OpenCV drawing primitive, with its arguments. *)
Inductive Draw : Type :=
| Rectangle (pt1 pt2 : Point) (color : Color) (thickness : Z)
| Circle (center : Point) (radius : Z) (color : Color) (thickness : Z)
| PutText (text : string) (org : Point) (font : Font) (scale : Z)
          (color : Color) (thickness : Z) (line : LineType).

Record Frame : Type := { pixels : nat; painted : list Draw }.

(** The value of a Python variable that holds an image: a buffer or [None]. *)
Definition Img : Type := option Frame.

Definition paint (d : Draw) (f : Frame) : Frame :=
  {| pixels := pixels f; painted := painted f ++ [d] |}.

(** A drawing primitive mutates the buffer in place.  On [None] the
    embedding raises at once; the bindings return without drawing and the
    tick raises at [imshow]. *)
Definition cv2_draw (d : Draw) : M Img unit :=
  fun img => match img with
             | Some f => Ok tt (Some (paint d f))
             | None => Raise Cv2Error None
             end.

Definition cv2_rectangle pt1 pt2 color thickness : M Img unit :=
  cv2_draw (Rectangle pt1 pt2 color thickness).
Definition cv2_circle center radius color thickness : M Img unit :=
  cv2_draw (Circle center radius color thickness).
Definition cv2_putText text org font scale color thickness line : M Img unit :=
  cv2_draw (PutText text org font scale color thickness line).

(** Single-channel images, as the expressions that produced them. *)
Inductive GrayImage : Type :=
| COLOR_BGR2GRAY (src : Frame)
| CLAHE_apply (clip : Z) (tile : Z * Z) (src : GrayImage).

(** ** Geometry: [class BoundingBox] *)

Record BoundingBox : Type := { x : Z; y : Z; w : Z; h : Z }.

Definition origin (self : BoundingBox) : Point := (x self, y self).
Definition top_right (self : BoundingBox) : Z := x self + w self.
Definition bottom_left (self : BoundingBox) : Z := y self + h self.

(** A face rectangle as the classifier returns it: the tuple (x, y, w, h). *)
Definition Rect : Type := (Z * Z * Z * Z)%type.

(** [BoundingBox( *rectangle )] *)
Definition BoundingBox_star (r : Rect) : BoundingBox :=
  let '(x0, y0, w0, h0) := r in {| x := x0; y := y0; w := w0; h := h0 |}.

(** [rectangle[0]] and [rectangle[1]] *)
Definition rect_0 (r : Rect) : Z := let '(x0, _, _, _) := r in x0.
Definition rect_1 (r : Rect) : Z := let '(_, y0, _, _) := r in y0.

(** ** Strings *)

Definition upper_ascii (c : ascii) : ascii :=
  let n := N_of_ascii c in
  if andb (N.leb 97 n) (N.leb n 122) then ascii_of_N (n - 32) else c.

(** [str.upper] on ASCII text. *)
Fixpoint upper (s : string) : string :=
  match s with
  | EmptyString => EmptyString
  | String c rest => String (upper_ascii c) (upper rest)
  end.

(** [int(v / 2)] for an integer [v]: true division, then truncation. *)
Definition int_half (v : Z) : Z := Z.quot v 2.

(** ** Overlay renderer *)

Section Renderer.

(** [NO_FACE_LABEL] is imported from [utils.image_classifier]. *)
Variable NO_FACE_LABEL : string.

Definition draw_face_rectangle (bb : BoundingBox) (color : Color) : M Img unit :=
  cv2_rectangle (origin bb) (top_right bb, bottom_left bb) color 2.

Definition draw_landmark_points (points : option (list Point)) (color : Color)
  : M Img unit :=
  match points with
  | None => ret tt
  | Some pts => for_each pts (fun p => cv2_circle (fst p, snd p) 1 color (-1))
  end.

Definition write_label (x0 y0 : Z) (label : string) (color : Color) : M Img unit :=
  (if String.eqb label NO_FACE_LABEL
   then cv2_putText (upper label) (int_half FRAME_WIDTH, int_half FRAME_HEIGHT)
                    FONT 1 color 2 LINE_AA
   else ret tt) ;;
  cv2_putText label (x0 + 10, y0 - 10) FONT 1 color 2 LINE_AA.

End Renderer.

(** ** The collaborators of the loop *)

(** [predicted_labels] holds the empty string before the first
    classification and the classifier's sequence afterwards. *)
Inductive PyLabels : Type :=
| PStr (s : string)
| PList (l : list string).

(** Iterating the value: a string yields its one-character substrings. *)
Fixpoint chars (s : string) : list string :=
  match s with
  | EmptyString => []
  | String c rest => String c EmptyString :: chars rest
  end.

Definition py_iter (v : PyLabels) : list string :=
  match v with
  | PStr s => chars s
  | PList l => l
  end.

Definition PyLabels_eqb (a b : PyLabels) : bool :=
  match a, b with
  | PStr s, PStr t => String.eqb s t
  | PList l, PList m =>
      if list_eq_dec string_dec l m then true else false
  | _, _ => false
  end.

(** [old_txt != predicted_labels], where [old_txt] may be [None]. *)
Definition py_ne (old : option PyLabels) (cur : PyLabels) : bool :=
  match old with
  | None => true
  | Some o => negb (PyLabels_eqb o cur)
  end.

(** The landmark points of one face: a sequence of points or [None]. *)
Definition Landmarks : Type := option (list Point).

(** [utils.image_classifier.ImageClassifier], as far as the loop uses it. *)
Record ImageClassifier : Type := {
  classify : GrayImage -> list string;
  extract_face_rectangle : Img -> list Rect;
  extract_landmark_points : Img -> list Landmarks
}.

(** Calls that leave the process: polling, capture, classifier, log, display. *)
Inductive Event : Type :=
| WaitKey (delay : Z)
| VidCaptureRead
| Classify (img : GrayImage)
| ExtractFaceRectangle (img : Img)
| ExtractLandmarkPoints (img : Img)
| Print (labels : PyLabels)
| Imshow (winname : string) (img : Frame)
| DestroyAllWindows
| VidCaptureRelease.

(** What the environment answers during one evaluation of the loop
    condition and, if the loop goes on, of its body: the key code returned
    by [cv2.waitKey] and the picture delivered by [VideoCapture.read]
    ([None]: end of stream or device error). *)
Record Tick : Type := { pressed : Z; grabbed : option nat }.

(** Built-in [zip] on three sequences. *)
Fixpoint py_zip3 {A B C} (a : list A) (b : list B) (c : list C)
  : list (A * B * C) :=
  match a, b, c with
  | x1 :: a', x2 :: b', x3 :: c' => (x1, x2, x3) :: py_zip3 a' b' c'
  | _, _, _ => []
  end.

(** Built-in [ord] on a one-character string. *)
Definition ord (c : ascii) : Z := Z.of_N (N_of_ascii c).

(** ** [class RealTimeEmotionDetector] *)

(** The locals of [execute], the buffer [frame] refers to, and the calls
    issued during the current iteration (oldest first). *)
Record Store : Type := {
  frame_cnt : Z;
  predicted_labels : PyLabels;
  old_txt : option PyLabels;
  rectangles : list Rect;
  landmark_points_list : list Landmarks;
  frame : Img;
  out : list Event
}.

Definition set_frame_cnt (v : Z) (s : Store) : Store :=
  {| frame_cnt := v; predicted_labels := predicted_labels s;
     old_txt := old_txt s; rectangles := rectangles s;
     landmark_points_list := landmark_points_list s;
     frame := frame s; out := out s |}.

Definition set_predicted_labels (v : PyLabels) (s : Store) : Store :=
  {| frame_cnt := frame_cnt s; predicted_labels := v;
     old_txt := old_txt s; rectangles := rectangles s;
     landmark_points_list := landmark_points_list s;
     frame := frame s; out := out s |}.

Definition set_old_txt (v : option PyLabels) (s : Store) : Store :=
  {| frame_cnt := frame_cnt s; predicted_labels := predicted_labels s;
     old_txt := v; rectangles := rectangles s;
     landmark_points_list := landmark_points_list s;
     frame := frame s; out := out s |}.

Definition set_rectangles (v : list Rect) (s : Store) : Store :=
  {| frame_cnt := frame_cnt s; predicted_labels := predicted_labels s;
     old_txt := old_txt s; rectangles := v;
     landmark_points_list := landmark_points_list s;
     frame := frame s; out := out s |}.

Definition set_landmark_points_list (v : list Landmarks) (s : Store) : Store :=
  {| frame_cnt := frame_cnt s; predicted_labels := predicted_labels s;
     old_txt := old_txt s; rectangles := rectangles s;
     landmark_points_list := v;
     frame := frame s; out := out s |}.

Definition set_frame (v : Img) (s : Store) : Store :=
  {| frame_cnt := frame_cnt s; predicted_labels := predicted_labels s;
     old_txt := old_txt s; rectangles := rectangles s;
     landmark_points_list := landmark_points_list s;
     frame := v; out := out s |}.

Definition set_out (v : list Event) (s : Store) : Store :=
  {| frame_cnt := frame_cnt s; predicted_labels := predicted_labels s;
     old_txt := old_txt s; rectangles := rectangles s;
     landmark_points_list := landmark_points_list s;
     frame := frame s; out := v |}.

Definition emit (e : Event) : M Store unit :=
  modify (fun s => set_out (out s ++ [e]) s).

(** Run a drawing function on the buffer the local [frame] refers to. *)
Definition on_frame {A} (m : M Img A) : M Store A :=
  fun s => match m (frame s) with
           | Ok a img => Ok a (set_frame img s)
           | Raise e img => Raise e (set_frame img s)
           end.

(** [n % d == 0] for an integer [n] and a float of value [d]: the float
    remainder is computed without rounding. *)
Definition py_mod_is_zero (n : Z) (d : Q) : M Store bool :=
  if Qnum d =? 0 then raise ZeroDivisionError
  else ret ((n * Zpos (Qden d)) mod (Qnum d) =? 0).

(** How a run of [execute] over a finite script of ticks ends: it returned,
    an exception left it, or the script is used up and the loop is about to
    poll the keyboard again. *)
Inductive Outcome : Type :=
| Returned
| Raised (e : Error)
| Polling.

Record Run : Type := {
  ticks : list (list Event);   (* calls of each iteration that entered the body *)
  epilogue : list Event;       (* calls of the last poll and after the loop *)
  outcome : Outcome;
  final : Store
}.

Section Detector.

Variable NO_FACE_LABEL : string.
Variable classifier : ImageClassifier.   (* self.classifier *)

Definition CLAHE (g : GrayImage) : GrayImage := CLAHE_apply 2 (8, 8) g.

Definition read_frame (answer : option nat) : M Store Img :=
  emit VidCaptureRead ;;
  ret (match answer with
       | Some px => Some {| pixels := px; painted := [] |}
       | None => None
       end).

Definition cv2_cvtColor_BGR2GRAY (img : Img) : M Store GrayImage :=
  match img with
  | Some f => ret (COLOR_BGR2GRAY f)
  | None => raise Cv2Error
  end.

Definition transform_img (img : Img) : M Store GrayImage :=
  gray_img <- cv2_cvtColor_BGR2GRAY img ;;
  ret (CLAHE gray_img).

Definition cv2_imshow (winname : string) (img : Img) : M Store unit :=
  match img with
  | Some f => emit (Imshow winname f)
  | None => raise Cv2Error
  end.

(** The body of the [for] statement of [execute]. *)
Definition render_face (item : string * Rect * Landmarks) : M Store unit :=
  let '(lbl, rectangle, lm_points) := item in
  on_frame (draw_face_rectangle (BoundingBox_star rectangle) BLUE_COLOR) ;;
  on_frame (draw_landmark_points lm_points WHITE_COLOR) ;;
  on_frame (write_label NO_FACE_LABEL (rect_0 rectangle) (rect_1 rectangle)
                        lbl BLUE_COLOR) ;;
  old <- gets old_txt ;;
  cur <- gets predicted_labels ;;
  if py_ne old cur
  then emit (Print cur) ;; modify (set_old_txt (Some cur))
  else ret tt.

(** The body of the [while] statement of [execute]. *)
Definition execute_body (frame_period_s : Q) (answer : option nat)
  : M Store unit :=
  modify (fun s => set_frame_cnt (frame_cnt s + 1) s) ;;
  fr <- read_frame answer ;;
  modify (set_frame fr) ;;
  cnt <- gets frame_cnt ;;
  due <- py_mod_is_zero cnt (frame_period_s * inject_Z 100)%Q ;;
  (if due : bool
   then
     modify (set_frame_cnt 0) ;;
     img <- gets frame ;;
     gray <- transform_img img ;;
     emit (Classify gray) ;;
     modify (set_predicted_labels (PList (classify classifier gray))) ;;
     img <- gets frame ;;
     emit (ExtractFaceRectangle img) ;;
     modify (set_rectangles (extract_face_rectangle classifier img)) ;;
     img <- gets frame ;;
     emit (ExtractLandmarkPoints img) ;;
     modify (set_landmark_points_list (extract_landmark_points classifier img))
   else ret tt) ;;
  labels <- gets predicted_labels ;;
  rs <- gets rectangles ;;
  lms <- gets landmark_points_list ;;
  for_each (py_zip3 (py_iter labels) rs lms) render_face ;;
  img <- gets frame ;;
  cv2_imshow "Emotion Detection" img.

(** The locals as [execute] initialises them. *)
Definition initial : Store :=
  {| frame_cnt := 0;
     predicted_labels := PStr "";
     old_txt := None;
     rectangles := [(0, 0, 0, 0)];
     landmark_points_list := [Some [(0, 0)]];
     frame := None;
     out := [] |}.

(** The [while] statement and the two statements after it. *)
Fixpoint execute_loop (wait_key_delay : Z) (quit_key : ascii)
         (frame_period_s : Q) (script : list Tick) (s : Store) : Run :=
  match script with
  | [] => {| ticks := []; epilogue := []; outcome := Polling; final := s |}
  | t :: rest =>
      if pressed t =? ord quit_key
      then {| ticks := [];
              epilogue := [WaitKey wait_key_delay; DestroyAllWindows;
                           VidCaptureRelease];
              outcome := Returned;
              final := s |}
      else
        match execute_body frame_period_s (grabbed t)
                           (set_out [WaitKey wait_key_delay] s) with
        | Ok _ s' =>
            let r := execute_loop wait_key_delay quit_key frame_period_s
                                  rest s' in
            {| ticks := out s' :: ticks r; epilogue := epilogue r;
               outcome := outcome r; final := final r |}
        | Raise e s' =>
            {| ticks := [out s']; epilogue := [];
               outcome := Raised e; final := s' |}
        end
  end.

Definition execute (wait_key_delay : Z) (quit_key : ascii)
           (frame_period_s : Q) (script : list Tick) : Run :=
  execute_loop wait_key_delay quit_key frame_period_s script initial.

(** [execute()] with the defaults of its signature. *)
Definition execute_default (script : list Tick) : Run :=
  execute 33 "q"%char (3 # 4) script.

End Detector.

(** ** Vocabulary of the statements *)

(** The drawing commands one paired annotation contributes to the frame:
    the box, then one marker per landmark point, then the label text(s). *)
Definition landmark_draws (points : Landmarks) (color : Color) : list Draw :=
  match points with
  | None => []
  | Some pts => map (fun p => Circle (fst p, snd p) 1 color (-1)) pts
  end.

Definition corner_text (x0 y0 : Z) (label : string) (color : Color) : Draw :=
  PutText label (x0 + 10, y0 - 10) FONT 1 color 2 LINE_AA.

Definition centre_text (label : string) (color : Color) : Draw :=
  PutText (upper label) (320, 245) FONT 1 color 2 LINE_AA.

Definition label_draws (NO_FACE_LABEL : string) (x0 y0 : Z) (label : string)
           (color : Color) : list Draw :=
  if String.eqb label NO_FACE_LABEL
  then [centre_text label color; corner_text x0 y0 label color]
  else [corner_text x0 y0 label color].

Definition face_draws (NO_FACE_LABEL : string)
           (item : string * Rect * Landmarks) : list Draw :=
  let '(lbl, (x0, y0, w0, h0), lm_points) := item in
  Rectangle (x0, y0) (x0 + w0, y0 + h0) BLUE_COLOR 2
  :: landmark_draws lm_points WHITE_COLOR
  ++ label_draws NO_FACE_LABEL x0 y0 lbl BLUE_COLOR.

(** The paired annotation set a store holds. *)
Definition annotations (s : Store) : list (string * Rect * Landmarks) :=
  py_zip3 (py_iter (predicted_labels s)) (rectangles s) (landmark_points_list s).

(** A buffer after the commands [ds] were applied to it. *)
Definition painted_with (ds : list Draw) (f : Frame) : Frame :=
  {| pixels := pixels f; painted := painted f ++ ds |}.

(** The buffer [read_frame] hands over for a delivered picture. *)
Definition fresh (px : nat) : Frame := {| pixels := px; painted := [] |}.

(** A tick on which the loop goes on and the capture delivers a picture. *)
Definition tick_ok (quit_key : ascii) (t : Tick) : bool :=
  negb (pressed t =? ord quit_key)
  && match grabbed t with Some _ => true | None => false end.

(** The picture delivered on tick [k] (counted from 1) of a script. *)
Definition picture (script : list Tick) (k : nat) : nat :=
  match nth_error script (k - 1) with
  | Some {| grabbed := Some px |} => px
  | _ => O
  end.

(** The calls issued during tick [k] (counted from 1) of a run. *)
Definition tick_events (r : Run) (k : nat) : list Event :=
  nth (k - 1) (ticks r) [].

(** Every call of a run, in order. *)
Definition all_events (r : Run) : list Event :=
  List.concat (ticks r) ++ epilogue r.

Definition is_classifier_call (e : Event) : bool :=
  match e with
  | Classify _ | ExtractFaceRectangle _ | ExtractLandmarkPoints _ => true
  | _ => false
  end.

Definition is_classify (e : Event) : bool :=
  match e with Classify _ => true | _ => false end.
Definition is_extract_face_rectangle (e : Event) : bool :=
  match e with ExtractFaceRectangle _ => true | _ => false end.
Definition is_extract_landmark_points (e : Event) : bool :=
  match e with ExtractLandmarkPoints _ => true | _ => false end.
Definition is_destroy (e : Event) : bool :=
  match e with DestroyAllWindows => true | _ => false end.
Definition is_release (e : Event) : bool :=
  match e with VidCaptureRelease => true | _ => false end.
Definition is_read (e : Event) : bool :=
  match e with VidCaptureRead => true | _ => false end.

Definition count (p : Event -> bool) (l : list Event) : nat :=
  List.length (filter p l).

(** The label collections a list of calls logs, in order. *)
Definition printed (l : list Event) : list PyLabels :=
  flat_map (fun e => match e with Print v => [v] | _ => [] end) l.

(** No two neighbours of the list are equal. *)
Fixpoint no_repeat (l : list PyLabels) : Prop :=
  match l with
  | a :: (b :: _) as rest => a <> b /\ no_repeat rest
  | _ => True
  end.

(** The test of [execute] that decides whether the log line is written,
    for a store before the tick's rendering. *)
Definition log_due (old : option PyLabels) (s : Store) : bool :=
  match annotations s with
  | [] => false
  | _ :: _ => py_ne old (predicted_labels s)
  end.

(** The cadence test of [execute] on counter value [n]. *)
Definition due (frame_period_s : Q) (n : Z) : bool :=
  let d := (frame_period_s * inject_Z 100)%Q in
  (n * Zpos (Qden d)) mod (Qnum d) =? 0.

(** The locals that hold the annotations and the counter are the same. *)
Definition same_locals (s s' : Store) : Prop :=
  frame_cnt s' = frame_cnt s
  /\ predicted_labels s' = predicted_labels s
  /\ rectangles s' = rectangles s
  /\ landmark_points_list s' = landmark_points_list s.

(** What an iteration that got a picture leaves behind, field by field. *)
Record TickDone (NFL : string) (clf : ImageClassifier) (q : Q) (px : nat)
       (s s' : Store) : Prop := {
  td_frame_cnt :
    frame_cnt s' = if due q (frame_cnt s + 1) then 0 else frame_cnt s + 1;
  td_predicted_labels :
    predicted_labels s'
    = if due q (frame_cnt s + 1)
      then PList (classify clf (CLAHE (COLOR_BGR2GRAY (fresh px))))
      else predicted_labels s;
  td_rectangles :
    rectangles s'
    = if due q (frame_cnt s + 1)
      then extract_face_rectangle clf (Some (fresh px))
      else rectangles s;
  td_landmark_points_list :
    landmark_points_list s'
    = if due q (frame_cnt s + 1)
      then extract_landmark_points clf (Some (fresh px))
      else landmark_points_list s;
  td_frame :
    frame s' = Some (painted_with (flat_map (face_draws NFL) (annotations s'))
                                  (fresh px));
  td_old_txt :
    old_txt s' = if log_due (old_txt s) s'
                 then Some (predicted_labels s') else old_txt s;
  td_out :
    out s'
    = out s
      ++ [VidCaptureRead]
      ++ (if due q (frame_cnt s + 1)
          then [Classify (CLAHE (COLOR_BGR2GRAY (fresh px)));
                ExtractFaceRectangle (Some (fresh px));
                ExtractLandmarkPoints (Some (fresh px))]
          else [])
      ++ (if log_due (old_txt s) s' then [Print (predicted_labels s')] else [])
      ++ [Imshow "Emotion Detection"
                 (painted_with (flat_map (face_draws NFL) (annotations s'))
                               (fresh px))]
}.

(** The store left by the first [k] ticks of a script. *)
Definition after_ticks (NO_FACE_LABEL : string) (classifier : ImageClassifier)
           (wait_key_delay : Z) (quit_key : ascii) (frame_period_s : Q)
           (script : list Tick) (k : nat) : Store :=
  final (execute NO_FACE_LABEL classifier wait_key_delay quit_key
                 frame_period_s (firstn k script)).

(** ** Sample collaborators and scripts *)

(** A classifier that sees one happy face in every picture. *)
Definition stub_classifier : ImageClassifier :=
  {| classify := fun _ => ["happy"];
     extract_face_rectangle := fun _ => [(10, 10, 50, 50)];
     extract_landmark_points := fun _ => [Some [(20, 20)]] |}.

(** The picture a single-channel image was computed from. *)
Fixpoint gray_pixels (g : GrayImage) : nat :=
  match g with
  | COLOR_BGR2GRAY f => pixels f
  | CLAHE_apply _ _ g' => gray_pixels g'
  end.

(** A classifier whose three answers have different lengths: on the
    pictures up to number 75 it reports one happy face; on later pictures
    it reports the label "sad" but no rectangle and no landmarks. *)
Definition uneven_classifier : ImageClassifier :=
  {| classify := fun g => if (gray_pixels g <=? 75)%nat then ["happy"] else ["sad"];
     extract_face_rectangle := fun img =>
       match img with
       | Some f => if (pixels f <=? 75)%nat then [(10, 10, 50, 50)] else []
       | None => []
       end;
     extract_landmark_points := fun img =>
       match img with
       | Some f => if (pixels f <=? 75)%nat then [Some [(20, 20)]] else []
       | None => []
       end |}.

(** [n] ticks without a key press ([waitKey] returns -1); tick [k]
    captures picture number [k]. *)
Definition steady_script (n : nat) : list Tick :=
  map (fun k => {| pressed := -1; grabbed := Some k |}) (seq 1 n).

(** A tick without a key press on which the capture fails. *)
Definition dropout : Tick := {| pressed := -1; grabbed := None |}.

(** A tick on which the key q is read. *)
Definition quit_tick : Tick := {| pressed := 113; grabbed := None |}.

(** ** The rest of [main.py]: construction and the entry point *)

Definition is_waitkey (e : Event) : bool :=
  match e with WaitKey _ => true | _ => false end.
Definition is_imshow (e : Event) : bool :=
  match e with Imshow _ _ => true | _ => false end.

(** The two capture properties [__init_video_capture] sets. *)
Inductive CapProp : Type := CAP_PROP_FRAME_WIDTH | CAP_PROP_FRAME_HEIGHT.

(** Calls of the whole process: those of the entry point and of the
    constructor, and, wrapped, those of [execute]. *)
Inductive SysEvent : Type :=
| LandMarkerNew (landmark_predictor_path : string)
| IsFile (path : string)
| Stdout (line : string)
| RunDataPreparer (dataset_images_dir : option string) (dataset_csv : string)
| ImageClassifierNew (csv_path algorithm : string)
| VideoCaptureNew (camera_idx : Z)
| VideoCaptureSet (prop : CapProp) (value : Z)
| Detector (e : Event).

(** The double-quote character, for the messages that quote a name. *)
Definition dquote : string := String (ascii_of_nat 34) EmptyString.

(** [print(a, b)]: the arguments separated by one blank. *)
Definition print2 (a b : string) : SysEvent := Stdout (a ++ " " ++ b)%string.

Definition is_stdout (e : SysEvent) : bool :=
  match e with Stdout _ => true | _ => false end.
Definition is_capture_new (e : SysEvent) : bool :=
  match e with VideoCaptureNew _ => true | _ => false end.
Definition is_capture_release (e : SysEvent) : bool :=
  match e with Detector VidCaptureRelease => true | _ => false end.
Definition is_data_preparer (e : SysEvent) : bool :=
  match e with RunDataPreparer _ _ => true | _ => false end.

Definition sys_count (p : SysEvent -> bool) (l : list SysEvent) : nat :=
  List.length (filter p l).

Section EntryPoint.

Variable NO_FACE_LABEL : string.

(** [RealTimeEmotionDetector.__init_video_capture] *)
Definition init_video_capture (camera_idx frame_w frame_h : Z) : list SysEvent :=
  [VideoCaptureNew camera_idx;
   VideoCaptureSet CAP_PROP_FRAME_WIDTH frame_w;
   VideoCaptureSet CAP_PROP_FRAME_HEIGHT frame_h].

(** [RealTimeEmotionDetector.__init__] *)
Definition detector_init : list SysEvent :=
  init_video_capture 0 FRAME_WIDTH FRAME_HEIGHT.

(** [run_real_time_emotion_detector].  The answers of the outside world
    are arguments: whether [isfile(dataset_csv)] holds, the classifier
    that [ImageClassifier(...)] builds, and the script of ticks.  The
    result is the calls issued and how [execute()] ended. *)
Definition run_real_time_emotion_detector
           (classifier_algorithm predictor_path dataset_csv : string)
           (dataset_images_dir : option string)
           (csv_exists : bool) (classifier : ImageClassifier)
           (script : list Tick) : list SysEvent * Outcome :=
  let r := execute_default NO_FACE_LABEL classifier script in
  ([LandMarkerNew predictor_path; IsFile dataset_csv]
   ++ (if negb csv_exists
       then [print2 "[INFO]"
                    ("Dataset file: " ++ dquote ++ dataset_csv ++ dquote
                     ++ " could not found.")%string;
             RunDataPreparer dataset_images_dir dataset_csv]
       else [print2 "[INFO]"
                    ("Dataset file: " ++ dquote ++ dataset_csv ++ dquote
                     ++ " found.")%string])
   ++ [ImageClassifierNew dataset_csv classifier_algorithm;
       Stdout ("[INFO] Opening camera, press " ++ dquote ++ "q" ++ dquote
               ++ " to exit..")%string]
   ++ detector_init
   ++ map Detector (all_events r),
   outcome r).

(** The module run as a script. *)
Definition main (csv_exists : bool) (classifier : ImageClassifier)
           (script : list Tick) : list SysEvent * Outcome :=
  let '(evs, o) :=
    run_real_time_emotion_detector
      "RandomForest" "utils/shape_predictor_68_face_landmarks.dat"
      "data/csv/dataset.csv" (Some "data/raw") csv_exists classifier script in
  match o with
  | Returned => (evs ++ [Stdout "Successfully terminated."], o)
  | _ => (evs, o)
  end.

End EntryPoint.

(** What the last classification left: the three locals of a store are the
    classifier's answers for picture [px]. *)
Definition classified_from (clf : ImageClassifier) (px : nat) (s : Store) : Prop :=
  predicted_labels s = PList (classify clf (CLAHE (COLOR_BGR2GRAY (fresh px))))
  /\ rectangles s = extract_face_rectangle clf (Some (fresh px))
  /\ landmark_points_list s = extract_landmark_points clf (Some (fresh px)).

(** ** The float argument [frame_period_s]

    A Python float is a binary64 number.  The product
    [frame_period_s * 100] is rounded to the nearest binary64 number, ties
    to even; the remainder [frame_cnt % d] of the integer counter by that
    product [d] is computed without rounding, so the test
    [frame_cnt % d == 0] holds exactly when the counter is a whole
    multiple of the value of [d].  The embedding of [execute] above
    therefore runs with a rational [q] that stands for the product: the
    run of the program for the float [frame_period_s] is the run of the
    embedding for [q] with [q * 100] equal to the value of the rounded
    product. *)

(** [float(n)] for a Python integer [n]. *)
Definition b64_of_int (n : Z) : spec_float := binary_normalize 53 1024 n 0 false.

(** The product of two floats. *)
Definition b64_mul (a b : spec_float) : spec_float := SFmul 53 1024 a b.

(** The float a literal denotes that is written as the decimal fraction
    [a / b], such as 0.75 = 3/4 or 0.07 = 7/100: the nearest binary64
    number. *)
Definition b64_ratio (a b : Z) : spec_float :=
  SFdiv 53 1024 (b64_of_int a) (b64_of_int b).

(** The number a finite float stands for. *)
Definition b64_value (f : spec_float) : option Q :=
  match f with
  | S754_zero _ => Some (inject_Z 0)
  | S754_finite s m e =>
      let n := if s then Zneg m else Zpos m in
      Some (match e with
            | Zneg k => n # Pos.pow 2 k
            | _ => inject_Z (n * 2 ^ e)
            end)
  | S754_infinity _ | S754_nan => None
  end.

(** The rational the embedding runs with when [execute] is called with
    the float [frame_period_s]: a hundredth of the value of the binary64
    product [frame_period_s * 100].  (An infinite or undefined product has
    no such rational.) *)
Definition model_period (frame_period_s : spec_float) : option Q :=
  if valid_binary 53 1024 frame_period_s
  then match b64_value (b64_mul frame_period_s (b64_of_int 100)) with
       | Some d => Some (d / inject_Z 100)%Q
       | None => None
       end
  else None.

(** The float [frame_period_s] gives a period of [P] ticks: the binary64
    product [frame_period_s * 100] is the whole number [P], small enough
    for every counter value up to it to be a binary64 number as well;
    [q] is the rational the embedding runs with. *)
Definition period_is (frame_period_s : spec_float) (q : Q) (P : Z) : Prop :=
  model_period frame_period_s = Some q
  /\ (q * inject_Z 100 == inject_Z P)%Q
  /\ 0 < P <= 2 ^ 53.

(** The rational of a float whose product is finite (0 otherwise). *)
Definition model_of (frame_period_s : spec_float) : Q :=
  match model_period frame_period_s with
  | Some q => q
  | None => inject_Z 0
  end.

(** The default [frame_period_s = 0.75]. *)
Definition three_quarters : spec_float := b64_ratio 3 4.

(** The literal 0.07, whose product by 100 is not a whole number. *)
Definition seven_hundredths : spec_float := b64_ratio 7 100.

(** No counter value from 1 to [k] passes the cadence test. *)
Definition none_due (q : Q) (k : nat) : bool :=
  forallb (fun n => negb (due q (Z.of_nat n))) (seq 1 k).

(** ** Coordinates OpenCV accepts

    The drawing calls take their coordinates as C [int]s. *)
Definition c_int (v : Z) : bool := (- 2 ^ 31 <=? v) && (v <? 2 ^ 31).

(** Every coordinate the loop passes to OpenCV for one annotation. *)
Definition drawable (item : string * Rect * Landmarks) : bool :=
  let '(_, (x0, y0, w0, h0), lm) := item in
  c_int x0 && c_int y0 && c_int (x0 + w0) && c_int (y0 + h0)
  && c_int (x0 + 10) && c_int (y0 - 10)
  && match lm with
     | Some pts => forallb (fun p => c_int (fst p) && c_int (snd p)) pts
     | None => true
     end.

(** ** Assigning to an attribute of a [BoundingBox]

    [__init__] stores [x], [y], [w] and [h] as plain instance attributes;
    [origin], [top_right] and [bottom_left] are properties without a
    setter, so Python refuses an assignment to them. *)

(** The names the class defines. *)
Inductive Attribute : Type :=
| attr_x | attr_y | attr_w | attr_h
| attr_origin | attr_top_right | attr_bottom_left.

Inductive Assignment : Type :=
| Assigned (bb : BoundingBox)
| AttributeError.

(** [self.<name> = v] for one of these names and an integer [v]. *)
Definition setattr (self : BoundingBox) (name : Attribute) (v : Z) : Assignment :=
  match name with
  | attr_x => Assigned {| x := v; y := y self; w := w self; h := h self |}
  | attr_y => Assigned {| x := x self; y := v; w := w self; h := h self |}
  | attr_w => Assigned {| x := x self; y := y self; w := v; h := h self |}
  | attr_h => Assigned {| x := x self; y := y self; w := w self; h := v |}
  | attr_origin | attr_top_right | attr_bottom_left => AttributeError
  end.

(** ** The renderer *)

Lemma for_each_circles (pts : list Point) (color : Color) (f : Frame) :
  for_each pts (fun p => cv2_circle (fst p, snd p) 1 color (-1)) (Some f)
  = Ok tt (Some (painted_with (landmark_draws (Some pts) color) f)).
Proof.
  revert f. induction pts as [|p pts IH]; intros f.
  - destruct f as [px ds]. cbn. unfold ret, painted_with. cbn.
    now rewrite app_nil_r.
  - cbn [for_each]. unfold bind at 1. cbn. rewrite IH.
    unfold painted_with, paint. cbn. now rewrite <- app_assoc.
Qed.

(** C9, as the code has it.  [BoundingBox(x, y, w, h)] has its origin at
    [(x, y)], its [top_right] abscissa at [x + w] and its [bottom_left]
    ordinate at [y + h], for all integers and so for the non-negative
    widths and heights the geometry is meant for.  The three derived
    corners are read-only: assigning to one of them is refused, and of
    the names the class defines they are the only ones for which an
    assignment is refused.  The four fields are ordinary writable
    attributes: assigning to one of them succeeds, changes that field
    only, and the corners, computed from the current fields, follow. *)
Theorem BoundingBox_corners (x0 y0 w0 h0 : Z) :
  let bb := {| x := x0; y := y0; w := w0; h := h0 |} in
  (top_right bb = x0 + w0
   /\ bottom_left bb = y0 + h0
   /\ origin bb = (x0, y0)
   /\ BoundingBox_star (x0, y0, w0, h0) = bb)
  /\ (forall (name : Attribute) (v : Z),
         setattr bb name v = AttributeError
         <-> name = attr_origin \/ name = attr_top_right
             \/ name = attr_bottom_left)
  /\ (forall v : Z,
         (exists bb', setattr bb attr_x v = Assigned bb'
                      /\ origin bb' = (v, y0) /\ top_right bb' = v + w0
                      /\ bottom_left bb' = y0 + h0)
         /\ (exists bb', setattr bb attr_y v = Assigned bb'
                         /\ origin bb' = (x0, v) /\ top_right bb' = x0 + w0
                         /\ bottom_left bb' = v + h0)
         /\ (exists bb', setattr bb attr_w v = Assigned bb'
                         /\ origin bb' = (x0, y0) /\ top_right bb' = x0 + v
                         /\ bottom_left bb' = y0 + h0)
         /\ (exists bb', setattr bb attr_h v = Assigned bb'
                         /\ origin bb' = (x0, y0) /\ top_right bb' = x0 + w0
                         /\ bottom_left bb' = y0 + v)).
Proof.
  cbn zeta. split; [repeat split|]. split.
  - intros name v. split.
    + destruct name; cbn; intros H; try discriminate H; auto.
    + intros [-> | [-> | ->]]; reflexivity.
  - intros v. repeat split; eexists; (split; [reflexivity|]); repeat split.
Qed.

(** C9 as stated fails: a box can be changed after it was built.  The
    box [BoundingBox(1, 2, 3, 4)] has [top_right] 4; after [bb.w = 10],
    which Python accepts, the same box has [top_right] 11. *)
Lemma BoundingBox_fields_are_writable :
  exists bb',
    setattr {| x := 1; y := 2; w := 3; h := 4 |} attr_w 10 = Assigned bb'
    /\ top_right {| x := 1; y := 2; w := 3; h := 4 |} = 4
    /\ top_right bb' = 11.
Proof. eexists. split; [reflexivity|]. split; reflexivity. Qed.

(** C8.  [draw_landmark_points] with [points] absent returns normally and
    leaves the image as it is, whatever the image (even an absent one);
    with a point sequence it draws, on the buffer, one filled circle of
    radius 1 per point, in order, and nothing else. *)
Theorem draw_landmark_points_absent_or_markers :
  (forall (color : Color) (img : Img),
      draw_landmark_points None color img = Ok tt img)
  /\ (forall (pts : list Point) (color : Color) (f : Frame),
         draw_landmark_points (Some pts) color (Some f)
         = Ok tt (Some {| pixels := pixels f;
                          painted := painted f
                                     ++ map (fun p => Circle p 1 color (-1)) pts |})).
Proof.
  split.
  - reflexivity.
  - intros pts color f. cbn [draw_landmark_points].
    rewrite for_each_circles. unfold painted_with, landmark_draws.
    do 4 f_equal. apply map_ext. now intros [a b].
Qed.

(** C7.  On a buffer, [write_label] with the sentinel label draws the
    upper-cased sentinel with its origin at the centre (320, 245) of the
    640 x 490 frame and then the ordinary text at [(x + 10, y - 10)]: two
    commands.  With any other label it draws the ordinary text only. *)
Theorem write_label_sentinel_and_others
        (NO_FACE_LABEL : string) (x0 y0 : Z) (label : string)
        (color : Color) (f : Frame) :
  (label = NO_FACE_LABEL ->
   write_label NO_FACE_LABEL x0 y0 label color (Some f)
   = Ok tt (Some {| pixels := pixels f;
                    painted := painted f
                      ++ [PutText (upper NO_FACE_LABEL)
                                  (FRAME_WIDTH / 2, FRAME_HEIGHT / 2)
                                  FONT 1 color 2 LINE_AA;
                          PutText NO_FACE_LABEL (x0 + 10, y0 - 10)
                                  FONT 1 color 2 LINE_AA] |}))
  /\ (label <> NO_FACE_LABEL ->
      write_label NO_FACE_LABEL x0 y0 label color (Some f)
      = Ok tt (Some {| pixels := pixels f;
                       painted := painted f
                         ++ [PutText label (x0 + 10, y0 - 10)
                                     FONT 1 color 2 LINE_AA] |})).
Proof.
  split; intros Hl; unfold write_label.
  - subst label. rewrite String.eqb_refl.
    unfold bind, cv2_putText, cv2_draw, paint. cbn.
    now rewrite <- app_assoc.
  - apply String.eqb_neq in Hl. rewrite Hl. reflexivity.
Qed.

Lemma write_label_sentinel_and_others_witness :
  write_label "noface" 0 0 "noface" BLUE_COLOR (Some (fresh 1))
  = Ok tt (Some {| pixels := 1;
                   painted := [PutText "NOFACE" (320, 245) FONT 1 BLUE_COLOR 2 LINE_AA;
                               PutText "noface" (10, -10) FONT 1 BLUE_COLOR 2 LINE_AA] |})
  /\ write_label "noface" 10 10 "happy" BLUE_COLOR (Some (fresh 1))
     = Ok tt (Some {| pixels := 1;
                      painted := [PutText "happy" (20, 0) FONT 1 BLUE_COLOR 2 LINE_AA] |}).
Proof.
  split.
  - apply (proj1 (write_label_sentinel_and_others "noface" 0 0 "noface"
                    BLUE_COLOR (fresh 1))).
    reflexivity.
  - apply (proj2 (write_label_sentinel_and_others "noface" 10 10 "happy"
                    BLUE_COLOR (fresh 1))).
    discriminate.
Defined.

(** ** One face, and the [for] statement *)

Lemma PyLabels_eqb_eq (a b : PyLabels) : PyLabels_eqb a b = true <-> a = b.
Proof.
  destruct a as [s|l], b as [t|m]; cbn.
  - rewrite String.eqb_eq. split; congruence.
  - split; discriminate.
  - split; discriminate.
  - destruct (list_eq_dec string_dec l m); split; congruence.
Qed.

Lemma py_ne_same (v : PyLabels) : py_ne (Some v) v = false.
Proof.
  cbn. apply negb_false_iff. now apply PyLabels_eqb_eq.
Qed.

Lemma py_ne_true_iff (old : option PyLabels) (v : PyLabels) :
  py_ne old v = true <-> old <> Some v.
Proof.
  destruct old as [o|]; cbn.
  - rewrite negb_true_iff. split.
    + intros H E. injection E as ->.
      assert (PyLabels_eqb v v = true) by now apply PyLabels_eqb_eq.
      congruence.
    + intros H. destruct (PyLabels_eqb o v) eqn:E; [|reflexivity].
      apply PyLabels_eqb_eq in E. congruence.
  - split; [discriminate | reflexivity].
Qed.

Lemma same_locals_trans (a b c : Store) :
  same_locals a b -> same_locals b c -> same_locals a c.
Proof.
  unfold same_locals. intros (?&?&?&?) (?&?&?&?). repeat split; congruence.
Qed.

Lemma draw_landmark_points_buffer (lm : Landmarks) (color : Color) (f : Frame) :
  draw_landmark_points lm color (Some f)
  = Ok tt (Some (painted_with (landmark_draws lm color) f)).
Proof.
  destruct lm as [pts|].
  - apply for_each_circles.
  - cbn. unfold ret, painted_with. cbn. rewrite app_nil_r. now destruct f.
Qed.

Lemma write_label_buffer (NFL : string) (x0 y0 : Z) (label : string)
      (color : Color) (f : Frame) :
  write_label NFL x0 y0 label color (Some f)
  = Ok tt (Some (painted_with (label_draws NFL x0 y0 label color) f)).
Proof.
  unfold write_label, label_draws.
  destruct (String.eqb label NFL); cbn; unfold painted_with, paint; cbn.
  - now rewrite <- app_assoc.
  - reflexivity.
Qed.

Section Faces.

Variable NO_FACE_LABEL : string.

Lemma render_face_buffer (item : string * Rect * Landmarks)
      (s : Store) (f : Frame) :
  frame s = Some f ->
  exists s',
    render_face NO_FACE_LABEL item s = Ok tt s'
    /\ frame s' = Some (painted_with (face_draws NO_FACE_LABEL item) f)
    /\ same_locals s s'
    /\ old_txt s' = (if py_ne (old_txt s) (predicted_labels s)
                     then Some (predicted_labels s) else old_txt s)
    /\ out s' = out s ++ (if py_ne (old_txt s) (predicted_labels s)
                          then [Print (predicted_labels s)] else []).
Proof.
  intros Hf. destruct item as [[lbl [[[x0 y0] w0] h0]] lm].
  unfold render_face, bind, on_frame. rewrite Hf.
  unfold draw_face_rectangle, cv2_rectangle, cv2_draw. cbn.
  rewrite draw_landmark_points_buffer. cbn.
  rewrite write_label_buffer. cbn.
  unfold painted_with, paint. cbn. rewrite <- !app_assoc. cbn.
  destruct (py_ne (old_txt s) (predicted_labels s)); cbn.
  - eexists. split; [reflexivity|]. cbn. repeat split.
  - eexists. split; [reflexivity|]. cbn. rewrite app_nil_r. repeat split.
Qed.

Lemma for_each_render_face (items : list (string * Rect * Landmarks))
      (s : Store) (f : Frame) :
  frame s = Some f ->
  let log := match items with
             | [] => false
             | _ :: _ => py_ne (old_txt s) (predicted_labels s)
             end in
  exists s',
    for_each items (render_face NO_FACE_LABEL) s = Ok tt s'
    /\ frame s' = Some (painted_with (flat_map (face_draws NO_FACE_LABEL) items) f)
    /\ same_locals s s'
    /\ old_txt s' = (if log then Some (predicted_labels s) else old_txt s)
    /\ out s' = out s ++ (if log then [Print (predicted_labels s)] else []).
Proof.
  revert s f. induction items as [|item items IH]; intros s f Hf; cbn zeta.
  - exists s. cbn. unfold ret. rewrite app_nil_r. repeat split.
    rewrite Hf. unfold painted_with. rewrite app_nil_r. now destruct f.
  - destruct (render_face_buffer item s f Hf)
      as (s1 & E1 & F1 & L1 & O1 & T1).
    destruct (IH s1 _ F1) as (s2 & E2 & F2 & L2 & O2 & T2).
    cbn zeta in *.
    exists s2. cbn [for_each]. unfold bind at 1. rewrite E1.
    split; [exact E2|]. split.
    { rewrite F2. unfold painted_with. cbn. now rewrite <- app_assoc. }
    split; [eapply same_locals_trans; eassumption|].
    assert (P1 : predicted_labels s1 = predicted_labels s) by apply L1.
    assert (Q : match items with
                | [] => false
                | _ :: _ => py_ne (old_txt s1) (predicted_labels s1)
                end = false).
    { destruct items; [reflexivity|]. rewrite O1, P1.
      destruct (py_ne (old_txt s) (predicted_labels s)) eqn:E;
        [apply py_ne_same | exact E]. }
    rewrite Q in O2, T2. rewrite O2, T2, O1, T1, app_nil_r. now split.
Qed.

End Faces.

(** ** One iteration of the [while] statement *)

Lemma py_mod_is_zero_period (q : Q) (n : Z) (s : Store) :
  Qnum q <> 0 ->
  py_mod_is_zero n (q * inject_Z 100)%Q s = Ok (due q n) s.
Proof.
  intros Hq. unfold py_mod_is_zero, due.
  replace (Qnum (q * inject_Z 100) =? 0) with false; [reflexivity|].
  symmetry. apply Z.eqb_neq. destruct q as [a b]. cbn in *. lia.
Qed.

Lemma py_mod_is_zero_zero (q : Q) (n : Z) (s : Store) :
  Qnum q = 0 ->
  py_mod_is_zero n (q * inject_Z 100)%Q s = Raise ZeroDivisionError s.
Proof.
  intros Hq. unfold py_mod_is_zero.
  replace (Qnum (q * inject_Z 100) =? 0) with true; [reflexivity|].
  symmetry. apply Z.eqb_eq. destruct q as [a b]. cbn in *. lia.
Qed.

Section Body.

Variable NO_FACE_LABEL : string.
Variable classifier : ImageClassifier.
Variable frame_period_s : Q.

Lemma execute_body_picture (px : nat) (s : Store) :
  Qnum frame_period_s <> 0 ->
  exists s',
    execute_body NO_FACE_LABEL classifier frame_period_s (Some px) s = Ok tt s'
    /\ TickDone NO_FACE_LABEL classifier frame_period_s px s s'.
Proof.
  intros Hq. unfold execute_body.
  unfold bind at 1. cbn [modify].
  unfold bind at 1. unfold read_frame, emit, bind at 1. cbn [modify ret].
  unfold bind at 1. cbn [modify].
  unfold bind at 1. cbn [gets].
  unfold bind at 1. rewrite py_mod_is_zero_period by exact Hq.
  cbn [frame_cnt set_frame set_out set_frame_cnt].
  destruct (due frame_period_s (frame_cnt s + 1)) eqn:Hdue;
    unfold bind at 1; cbn; unfold bind at 1;
    match goal with
    | |- context [for_each ?items _ ?st] =>
        destruct (@for_each_render_face NO_FACE_LABEL items st (fresh px) eq_refl)
          as (s2 & E2 & F2 & (C2 & P2 & R2 & M2) & O2 & T2)
    end;
    cbn in E2; rewrite E2;
    unfold bind at 1; cbn [gets]; rewrite F2; cbn [cv2_imshow emit modify];
    (eexists; split; [reflexivity|]);
    cbn in C2, P2, R2, M2, O2, T2;
    constructor; unfold log_due, annotations; cbn;
    rewrite ?Hdue, ?C2, ?P2, ?R2, ?M2, ?O2, ?T2;
    try reflexivity; try exact F2;
    rewrite <- !app_assoc; reflexivity.
Qed.

End Body.

(** ** Runs *)

Section Runs.

Variable NO_FACE_LABEL : string.
Variable classifier : ImageClassifier.
Variable wait_key_delay : Z.
Variable quit_key : ascii.
Variable frame_period_s : Q.

Local Abbreviation body := (execute_body NO_FACE_LABEL classifier frame_period_s).
Local Abbreviation loop := (execute_loop NO_FACE_LABEL classifier wait_key_delay
                                     quit_key frame_period_s).
Local Abbreviation run := (execute NO_FACE_LABEL classifier wait_key_delay
                               quit_key frame_period_s).

Lemma for_each_render_face_no_buffer
      (item : string * Rect * Landmarks)
      (items : list (string * Rect * Landmarks)) (s : Store) :
  frame s = None ->
  exists s', for_each (item :: items) (render_face NO_FACE_LABEL) s
             = Raise Cv2Error s'
             /\ out s' = out s.
Proof.
  intros Hf. destruct item as [[lbl [[[x0 y0] w0] h0]] lm].
  cbn [for_each]. unfold bind at 1. unfold render_face, bind at 1.
  unfold on_frame at 1. rewrite Hf. cbn. eexists. split; reflexivity.
Qed.

(** An iteration whose capture delivered nothing, or whose period is
    zero, never completes: an exception leaves it after the read. *)
Lemma execute_body_raises (answer : option nat) (s : Store) :
  answer = None \/ Qnum frame_period_s = 0 ->
  exists e s', body answer s = Raise e s'
               /\ out s' = out s ++ [VidCaptureRead].
Proof.
  intros Hc. unfold execute_body.
  unfold bind at 1. cbn [modify].
  unfold bind at 1. unfold read_frame, emit, bind at 1. cbn [modify ret].
  unfold bind at 1. cbn [modify].
  unfold bind at 1. cbn [gets].
  unfold bind at 1.
  destruct (Z.eq_dec (Qnum frame_period_s) 0) as [Hq|Hq].
  - rewrite py_mod_is_zero_zero by exact Hq. do 2 eexists. split; reflexivity.
  - destruct Hc as [->|Hc]; [|contradiction].
    rewrite py_mod_is_zero_period by exact Hq.
    destruct (due frame_period_s _).
    + unfold bind at 1. cbn. do 2 eexists. split; reflexivity.
    + unfold bind at 1. cbn. unfold bind at 1. cbn.
      destruct (py_zip3 _ _ _) as [|item items] eqn:Ez.
      * cbn. do 2 eexists. split; reflexivity.
      * match goal with
        | |- context [for_each _ _ ?st] =>
            destruct (@for_each_render_face_no_buffer item items st eq_refl)
              as (s' & E & O)
        end.
        rewrite E. do 2 eexists. split; [reflexivity|]. rewrite O. reflexivity.
Qed.

Lemma execute_loop_app (pre post : list Tick) (s : Store) :
  outcome (loop pre s) = Polling ->
  loop (pre ++ post) s
  = {| ticks := ticks (loop pre s) ++ ticks (loop post (final (loop pre s)));
       epilogue := epilogue (loop post (final (loop pre s)));
       outcome := outcome (loop post (final (loop pre s)));
       final := final (loop post (final (loop pre s))) |}.
Proof.
  revert s. induction pre as [|t pre IH]; intros s H.
  - cbn. now destruct (execute_loop _ _ _ _ _ post s).
  - cbn [execute_loop app] in *.
    destruct (pressed t =? ord quit_key); [discriminate|].
    destruct (execute_body _ _ _ _ _) as [[] s'|e s']; [|discriminate].
    cbn [outcome ticks final epilogue app] in *. now rewrite (IH s' H).
Qed.

Lemma polling_length (script : list Tick) (s : Store) :
  outcome (loop script s) = Polling ->
  List.length (ticks (loop script s)) = List.length script.
Proof.
  revert s. induction script as [|t script IH]; intros s H.
  - reflexivity.
  - cbn [execute_loop] in *.
    destruct (pressed t =? ord quit_key); [discriminate|].
    destruct (execute_body _ _ _ _ _) as [[] s'|e s']; [|discriminate].
    cbn [outcome ticks List.length] in *. now rewrite (IH s' H).
Qed.

Lemma tick_ok_inv (t : Tick) :
  tick_ok quit_key t = true ->
  (pressed t =? ord quit_key) = false /\ exists px, grabbed t = Some px.
Proof.
  unfold tick_ok. intros H. apply andb_true_iff in H as [H1 H2].
  apply negb_true_iff in H1. split; [exact H1|].
  destruct (grabbed t) as [px|]; [eauto | discriminate].
Qed.

Hypothesis period_nonzero : Qnum frame_period_s <> 0.

Lemma ok_script_polling (script : list Tick) (s : Store) :
  forallb (tick_ok quit_key) script = true ->
  outcome (loop script s) = Polling.
Proof.
  revert s. induction script as [|t script IH]; intros s H.
  - reflexivity.
  - cbn in H. apply andb_true_iff in H as [Ht Hs].
    apply tick_ok_inv in Ht as [Hk [px Hg]].
    cbn [execute_loop]. rewrite Hk, Hg.
    destruct (execute_body_picture NO_FACE_LABEL classifier frame_period_s px
                (set_out [WaitKey wait_key_delay] s) period_nonzero)
      as (s' & E & _).
    rewrite E. cbn [outcome]. now apply IH.
Qed.

(** One more tick after a prefix that left the loop polling. *)
Lemma run_step (pre post : list Tick) (t : Tick) (px : nat) (s : Store) :
  outcome (loop pre s) = Polling ->
  (pressed t =? ord quit_key) = false ->
  grabbed t = Some px ->
  exists s',
    TickDone NO_FACE_LABEL classifier frame_period_s px
             (set_out [WaitKey wait_key_delay] (final (loop pre s))) s'
    /\ final (loop (pre ++ [t]) s) = s'
    /\ nth (List.length pre) (ticks (loop (pre ++ t :: post) s)) [] = out s'.
Proof.
  intros Hpre Hk Hg.
  destruct (execute_body_picture NO_FACE_LABEL classifier frame_period_s px
              (set_out [WaitKey wait_key_delay] (final (loop pre s)))
              period_nonzero) as (s' & E & D).
  exists s'. split; [exact D|].
  rewrite !execute_loop_app by exact Hpre. cbn [ticks final].
  rewrite app_nth2, polling_length, Nat.sub_diag by (rewrite ?polling_length; auto).
  cbn [execute_loop]. rewrite Hk, Hg, E. cbn. split; reflexivity.
Qed.

Lemma forallb_firstn {A} (p : A -> bool) (l : list A) (n : nat) :
  forallb p l = true -> forallb p (firstn n l) = true.
Proof.
  revert n. induction l as [|a l IH]; intros [|n] H; cbn in *; auto.
  apply andb_true_iff in H as [Ha Hl]. now rewrite Ha, IH.
Qed.

Lemma firstn_snoc {A} (l : list A) (k : nat) (a : A) :
  nth_error l k = Some a -> firstn (S k) l = firstn k l ++ [a].
Proof.
  revert k. induction l as [|b l IH]; intros [|k] H; cbn in *; try discriminate.
  - now injection H as ->.
  - now rewrite (IH k H).
Qed.

Lemma split_at {A} (l : list A) (k : nat) (a : A) :
  nth_error l k = Some a -> l = firstn k l ++ a :: skipn (S k) l.
Proof.
  revert k. induction l as [|b l IH]; intros [|k] H; cbn in *; try discriminate.
  - now injection H as ->.
  - now rewrite <- (IH k H).
Qed.

(** Tick [k] of a run in which every tick goes on with a picture: it
    takes the store left by the first [k - 1] ticks to the store left by
    the first [k], and its calls are the [out] field of the latter. *)
Lemma tick_of_run (script : list Tick) (k : nat) :
  forallb (tick_ok quit_key) script = true ->
  (1 <= k <= List.length script)%nat ->
  TickDone NO_FACE_LABEL classifier frame_period_s (picture script k)
           (set_out [WaitKey wait_key_delay] (final (run (firstn (k - 1) script))))
           (final (run (firstn k script)))
  /\ tick_events (run script) k = out (final (run (firstn k script))).
Proof.
  intros Hok Hk.
  destruct (nth_error script (k - 1)) as [t|] eqn:Et.
  2:{ apply nth_error_None in Et. lia. }
  assert (Ht : tick_ok quit_key t = true).
  { rewrite forallb_forall in Hok. apply Hok. eapply nth_error_In; eauto. }
  apply tick_ok_inv in Ht as [Hq [px Hg]].
  assert (Hpre : outcome (loop (firstn (k - 1) script) initial) = Polling).
  { apply ok_script_polling. now apply forallb_firstn. }
  destruct (run_step (firstn (k - 1) script) (skipn (S (k - 1)) script)
                     t px initial Hpre Hq Hg) as (s' & D & F & N).
  assert (Ek : firstn k script = firstn (k - 1) script ++ [t]).
  { replace k with (S (k - 1)) at 1 by lia. now apply firstn_snoc. }
  assert (Epx : picture script k = px).
  { unfold picture. rewrite Et. destruct t as [key g]. cbn in Hg. now rewrite Hg. }
  unfold after_ticks, execute in *. rewrite Ek, Epx, F. split; [exact D|].
  unfold tick_events. rewrite (split_at script (k - 1) t Et) at 1.
  rewrite <- N. f_equal. rewrite length_firstn. lia.
Qed.

End Runs.

(** ** Cadence *)

Lemma due_whole_period (q : Q) (P n : Z) :
  (q * inject_Z 100 == inject_Z P)%Q -> 0 < P ->
  due q n = (n mod P =? 0) /\ Qnum q <> 0.
Proof.
  intros Hq HP. destruct q as [a b]. unfold due, Qeq in *. cbn in *.
  assert (Hn : a * 100 = P * Zpos (b * 1)) by lia.
  split.
  - rewrite Hn, Z.mul_mod_distr_r by lia.
    destruct (Z.eqb_spec (n mod P) 0) as [E|E].
    + rewrite E. reflexivity.
    + apply Z.eqb_neq. nia.
  - nia.
Qed.

Lemma next_count (P m : Z) :
  0 < P ->
  ((m mod P + 1) mod P =? 0) = ((m + 1) mod P =? 0)
  /\ ((m + 1) mod P <> 0 -> m mod P + 1 = (m + 1) mod P).
Proof.
  intros HP. rewrite Z.add_mod_idemp_l by lia. split; [reflexivity|].
  intros H. pose proof (Z.mod_pos_bound m P HP) as B.
  destruct (Z.eq_dec (m mod P + 1) P) as [E|E].
  - exfalso. apply H. rewrite <- (Z.add_mod_idemp_l m 1 P) by lia.
    rewrite E. apply Z.mod_same. lia.
  - rewrite <- (Z.add_mod_idemp_l m 1 P) by lia. symmetry.
    apply Z.mod_small. lia.
Qed.

Lemma count_app (p : Event -> bool) (a b : list Event) :
  count p (a ++ b) = (count p a + count p b)%nat.
Proof. unfold count. now rewrite filter_app, length_app. Qed.

Lemma py_ne_false (old : option PyLabels) (v : PyLabels) :
  py_ne old v = false -> old = Some v.
Proof.
  destruct old as [o|]; cbn; [|discriminate].
  intros H. apply negb_false_iff, PyLabels_eqb_eq in H. now subst.
Qed.

(** After a completed tick the non-empty annotation set has been logged. *)
Lemma tick_settles (NFL : string) (clf : ImageClassifier) (q : Q) (px : nat)
      (s s' : Store) :
  TickDone NFL clf q px s s' ->
  annotations s' = [] \/ old_txt s' = Some (predicted_labels s').
Proof.
  intros D. pose proof (td_old_txt _ _ _ _ _ _ D) as Ho.
  unfold log_due in Ho. destruct (annotations s') as [|a l]; [now left|right].
  destruct (py_ne (old_txt s) (predicted_labels s')) eqn:E; [exact Ho|].
  rewrite Ho. now apply py_ne_false.
Qed.

Section Cadence.

Variable NO_FACE_LABEL : string.
Variable classifier : ImageClassifier.
Variable wait_key_delay : Z.
Variable quit_key : ascii.
Variable frame_period_s : Q.

(** The period is a whole number [P] of ticks. *)
Variable P : Z.
Hypothesis period_ticks : (frame_period_s * inject_Z 100 == inject_Z P)%Q.
Hypothesis period_positive : 0 < P.

Local Abbreviation run := (execute NO_FACE_LABEL classifier wait_key_delay
                               quit_key frame_period_s).

Variable script : list Tick.
Hypothesis script_ok : forallb (tick_ok quit_key) script = true.

Local Abbreviation after := (after_ticks NO_FACE_LABEL classifier wait_key_delay
                                     quit_key frame_period_s script).

Lemma due_P (n : Z) : due frame_period_s n = (n mod P =? 0).
Proof. now apply due_whole_period. Qed.

Lemma period_nonzero : Qnum frame_period_s <> 0.
Proof. exact (proj2 (due_whole_period _ _ 0 period_ticks period_positive)). Qed.

Lemma tick_done (k : nat) :
  (1 <= k <= List.length script)%nat ->
  TickDone NO_FACE_LABEL classifier frame_period_s (picture script k)
           (set_out [WaitKey wait_key_delay] (after (k - 1))) (after k)
  /\ tick_events (run script) k = out (after k).
Proof.
  intros Hk. apply tick_of_run; auto using period_nonzero.
Qed.

(** After [k] ticks the counter holds [k mod P]. *)
Lemma frame_cnt_after (k : nat) :
  (k <= List.length script)%nat ->
  frame_cnt (after k) = Z.of_nat k mod P.
Proof.
  induction k as [|k IH]; intros Hk.
  - change (0 = 0 mod P). now rewrite Z.mod_0_l by lia.
  - destruct (tick_done (S k)) as [D _]; [lia|].
    rewrite (td_frame_cnt _ _ _ _ _ _ D). cbn [frame_cnt set_out].
    replace (S k - 1)%nat with k by lia. rewrite IH, due_P by lia.
    destruct (next_count P (Z.of_nat k) period_positive) as [E1 E2].
    rewrite E1. replace (Z.of_nat (S k)) with (Z.of_nat k + 1) by lia.
    destruct (Z.eqb_spec ((Z.of_nat k + 1) mod P) 0) as [E|E].
    + now rewrite E.
    + now apply E2.
Qed.

(** Tick [k] is due exactly when [k] is a multiple of [P]. *)
Lemma due_at_tick (k : nat) :
  (1 <= k <= List.length script)%nat ->
  due frame_period_s (frame_cnt (after (k - 1)) + 1) = (Z.of_nat k mod P =? 0).
Proof.
  intros Hk. rewrite frame_cnt_after, due_P by lia.
  destruct (next_count P (Z.of_nat (k - 1)) period_positive) as [E1 _].
  rewrite E1. do 2 f_equal. lia.
Qed.

(** The calls of tick [k], in order. *)
Lemma tick_events_shape (k : nat) :
  (1 <= k <= List.length script)%nat ->
  tick_events (run script) k
  = [WaitKey wait_key_delay; VidCaptureRead]
    ++ (if Z.of_nat k mod P =? 0
        then [Classify (CLAHE (COLOR_BGR2GRAY (fresh (picture script k))));
              ExtractFaceRectangle (Some (fresh (picture script k)));
              ExtractLandmarkPoints (Some (fresh (picture script k)))]
        else [])
    ++ (if log_due (old_txt (after (k - 1))) (after k)
        then [Print (predicted_labels (after k))] else [])
    ++ [Imshow "Emotion Detection"
               (painted_with (flat_map (face_draws NO_FACE_LABEL)
                                       (annotations (after k)))
                             (fresh (picture script k)))].
Proof.
  intros Hk. destruct (tick_done k Hk) as [D E].
  rewrite E, (td_out _ _ _ _ _ _ D). cbn [out set_out frame_cnt old_txt].
  now rewrite due_at_tick by exact Hk.
Qed.

Lemma classifier_calls_at_tick (k : nat) :
  (1 <= k <= List.length script)%nat ->
  let n := if Z.of_nat k mod P =? 0 then 1%nat else 0%nat in
  count is_classify (tick_events (run script) k) = n
  /\ count is_extract_face_rectangle (tick_events (run script) k) = n
  /\ count is_extract_landmark_points (tick_events (run script) k) = n.
Proof.
  intros Hk. rewrite tick_events_shape by exact Hk.
  rewrite !count_app.
  destruct (Z.of_nat k mod P =? 0), (log_due _ _); cbn; repeat split.
Qed.

(** On a tick that is not due the annotations are those of the tick before. *)
Lemma stale_tick (k : nat) :
  (1 <= k <= List.length script)%nat ->
  Z.of_nat k mod P <> 0 ->
  predicted_labels (after k) = predicted_labels (after (k - 1))
  /\ rectangles (after k) = rectangles (after (k - 1))
  /\ landmark_points_list (after k) = landmark_points_list (after (k - 1)).
Proof.
  intros Hk Hn. destruct (tick_done k Hk) as [D _].
  rewrite (td_predicted_labels _ _ _ _ _ _ D), (td_rectangles _ _ _ _ _ _ D),
    (td_landmark_points_list _ _ _ _ _ _ D).
  cbn [frame_cnt predicted_labels rectangles landmark_points_list set_out].
  rewrite due_at_tick by exact Hk.
  apply Z.eqb_neq in Hn. rewrite Hn. repeat split.
Qed.

(** During the [P - 1] ticks after tick [N + 0], with [N] a multiple of
    [P], the annotations stay those left by tick [N]. *)
Lemma stale_window (N j : nat) :
  Z.of_nat N mod P = 0 ->
  0 <= Z.of_nat j < P ->
  (N + j <= List.length script)%nat ->
  predicted_labels (after (N + j)) = predicted_labels (after N)
  /\ rectangles (after (N + j)) = rectangles (after N)
  /\ landmark_points_list (after (N + j)) = landmark_points_list (after N).
Proof.
  intros HN. induction j as [|j IH]; intros Hj Hlen.
  - rewrite Nat.add_0_r. repeat split.
  - destruct IH as (I1 & I2 & I3); [lia | lia |].
    destruct (stale_tick (N + S j)) as (S1 & S2 & S3); [lia | |].
    + rewrite Nat2Z.inj_add, Z.add_mod, HN, Z.add_0_l, Z.mod_mod by lia.
      rewrite Z.mod_small by lia. lia.
    + replace (N + S j - 1)%nat with (N + j)%nat in * by lia.
      repeat split; congruence.
Qed.

Lemma settled_after (k : nat) :
  (k <= List.length script)%nat ->
  annotations (after k) = []
  \/ old_txt (after k) = Some (predicted_labels (after k)).
Proof.
  destruct k as [|k]; intros Hk.
  - left. reflexivity.
  - destruct (tick_done (S k)) as [D _]; [lia|].
    exact (tick_settles _ _ _ _ _ _ D).
Qed.

(** A tick that is not due polls, reads and shows the picture with the
    annotations of the tick before drawn on it; it calls nothing else. *)
Lemma stale_tick_events (k : nat) :
  (1 <= k <= List.length script)%nat ->
  Z.of_nat k mod P <> 0 ->
  tick_events (run script) k
  = [WaitKey wait_key_delay; VidCaptureRead;
     Imshow "Emotion Detection"
            (painted_with (flat_map (face_draws NO_FACE_LABEL)
                                    (annotations (after (k - 1))))
                          (fresh (picture script k)))].
Proof.
  intros Hk Hn. rewrite tick_events_shape by exact Hk.
  destruct (stale_tick k Hk Hn) as (S1 & S2 & S3).
  assert (EA : annotations (after k) = annotations (after (k - 1))).
  { unfold annotations. now rewrite S1, S2, S3. }
  assert (L : log_due (old_txt (after (k - 1))) (after k) = false).
  { unfold log_due. rewrite EA.
    destruct (settled_after (k - 1)) as [E|E]; [lia | now rewrite E |].
    destruct (annotations (after (k - 1))); [reflexivity|].
    rewrite E, S1. apply py_ne_same. }
  rewrite L, EA. apply Z.eqb_neq in Hn. rewrite Hn. reflexivity.
Qed.

(** What a due tick leaves in the annotation locals. *)
Lemma due_tick_annotations (k : nat) :
  (1 <= k <= List.length script)%nat ->
  Z.of_nat k mod P = 0 ->
  annotations (after k)
  = py_zip3 (classify classifier (CLAHE (COLOR_BGR2GRAY (fresh (picture script k)))))
            (extract_face_rectangle classifier (Some (fresh (picture script k))))
            (extract_landmark_points classifier (Some (fresh (picture script k)))).
Proof.
  intros Hk Hn. destruct (tick_done k Hk) as [D _]. unfold annotations.
  rewrite (td_predicted_labels _ _ _ _ _ _ D), (td_rectangles _ _ _ _ _ _ D),
    (td_landmark_points_list _ _ _ _ _ _ D).
  cbn [frame_cnt set_out]. rewrite due_at_tick by exact Hk.
  apply Z.eqb_eq in Hn. now rewrite Hn.
Qed.

(** Before the first due tick the locals are as [execute] initialised them. *)
Lemma quiet_prefix (k : nat) :
  (k <= List.length script)%nat ->
  Z.of_nat k < P ->
  predicted_labels (after k) = PStr ""
  /\ rectangles (after k) = [(0, 0, 0, 0)]
  /\ landmark_points_list (after k) = [Some [(0, 0)]]
  /\ old_txt (after k) = None.
Proof.
  induction k as [|k IH]; intros Hk HP.
  - repeat split.
  - destruct IH as (I1 & I2 & I3 & I4); [lia | lia |].
    destruct (stale_tick (S k)) as (S1 & S2 & S3); [lia | |].
    { rewrite Z.mod_small; lia. }
    replace (S k - 1)%nat with k in * by lia.
    rewrite S1, S2, S3, I1, I2, I3. repeat split.
    destruct (tick_done (S k)) as [D _]; [lia|].
    rewrite (td_old_txt _ _ _ _ _ _ D). cbn [old_txt set_out].
    replace (S k - 1)%nat with k by lia.
    unfold log_due, annotations. rewrite S1, S2, S3, I1, I2, I3. exact I4.
Qed.

End Cadence.

(** ** Exit paths, and the log over a whole run *)

Lemma printed_app (a b : list Event) : printed (a ++ b) = printed a ++ printed b.
Proof. unfold printed. apply flat_map_app. Qed.

Section Exits.

Variable NO_FACE_LABEL : string.
Variable classifier : ImageClassifier.
Variable wait_key_delay : Z.
Variable quit_key : ascii.
Variable frame_period_s : Q.

Local Abbreviation body := (execute_body NO_FACE_LABEL classifier frame_period_s).
Local Abbreviation loop := (execute_loop NO_FACE_LABEL classifier wait_key_delay
                                     quit_key frame_period_s).

(** An iteration either completes, as [TickDone] describes, or raises
    right after the read. *)
Lemma execute_body_cases (answer : option nat) (s : Store) :
  (exists px s', answer = Some px /\ Qnum frame_period_s <> 0
                 /\ body answer s = Ok tt s'
                 /\ TickDone NO_FACE_LABEL classifier frame_period_s px s s')
  \/ (exists e s', (answer = None \/ Qnum frame_period_s = 0)
                   /\ body answer s = Raise e s'
                   /\ out s' = out s ++ [VidCaptureRead]).
Proof.
  destruct answer as [px|].
  - destruct (Z.eq_dec (Qnum frame_period_s) 0) as [Hq|Hq].
    + right.
      destruct (execute_body_raises NO_FACE_LABEL classifier frame_period_s
                  (Some px) s (or_intror Hq)) as (e & s' & E & O).
      exists e, s'. auto.
    + left.
      destruct (execute_body_picture NO_FACE_LABEL classifier frame_period_s
                  px s Hq) as (s' & E & D).
      exists px, s'. auto.
  - right.
    destruct (execute_body_raises NO_FACE_LABEL classifier frame_period_s
                None s (or_introl eq_refl)) as (e & s' & E & O).
    exists e, s'. auto.
Qed.

Lemma completed_tick_calls (px : nat) (s s' : Store) :
  TickDone NO_FACE_LABEL classifier frame_period_s px
           (set_out [WaitKey wait_key_delay] s) s' ->
  count is_destroy (out s') = 0%nat
  /\ count is_release (out s') = 0%nat
  /\ printed (out s')
     = (if log_due (old_txt s) s' then [predicted_labels s'] else []).
Proof.
  intros D. rewrite (td_out _ _ _ _ _ _ D).
  cbn [out set_out frame_cnt old_txt].
  rewrite !count_app, !printed_app.
  destruct (due frame_period_s (frame_cnt s + 1)), (log_due (old_txt s) s');
    cbn; repeat split.
Qed.

Lemma all_events_cons (evs : list Event) (r : Run) :
  all_events {| ticks := evs :: ticks r; epilogue := epilogue r;
                outcome := outcome r; final := final r |}
  = evs ++ all_events r.
Proof. unfold all_events. cbn. now rewrite app_assoc. Qed.

(** The two calls that follow the loop are issued once when [execute]
    returns, and never otherwise. *)
Lemma teardown_counts (script : list Tick) (s : Store) :
  let r := loop script s in
  let n := match outcome r with Returned => 1%nat | _ => 0%nat end in
  count is_destroy (all_events r) = n /\ count is_release (all_events r) = n.
Proof.
  revert s. induction script as [|t script IH]; intros s.
  - cbn. split; reflexivity.
  - cbn [execute_loop]. destruct (pressed t =? ord quit_key).
    + cbn. split; reflexivity.
    + destruct (execute_body_cases (grabbed t) (set_out [WaitKey wait_key_delay] s))
        as [(px & s' & _ & _ & E & D) | (e & s' & _ & E & O)];
        rewrite E.
      * cbn zeta. rewrite all_events_cons, !count_app. cbn [outcome].
        destruct (completed_tick_calls px s s' D) as (C1 & C2 & _).
        rewrite C1, C2. apply IH.
      * unfold all_events. cbn [ticks epilogue outcome List.concat].
        rewrite O. cbn. split; reflexivity.
Qed.

(** The log of a run never repeats a collection, and its first record
    differs from what was logged before the run. *)
Lemma log_chain (script : list Tick) (s : Store) :
  let l := printed (all_events (loop script s)) in
  no_repeat l
  /\ match l with v :: _ => old_txt s <> Some v | [] => True end.
Proof.
  revert s. induction script as [|t script IH]; intros s.
  - cbn. split; exact I.
  - cbn [execute_loop]. destruct (pressed t =? ord quit_key).
    + cbn. split; exact I.
    + destruct (execute_body_cases (grabbed t) (set_out [WaitKey wait_key_delay] s))
        as [(px & s' & _ & _ & E & D) | (e & s' & _ & E & O)];
        rewrite E.
      * cbn zeta. rewrite all_events_cons, printed_app.
        destruct (completed_tick_calls px s s' D) as (_ & _ & Pr).
        rewrite Pr. pose proof (td_old_txt _ _ _ _ _ _ D) as Ho.
        cbn [old_txt set_out] in Ho.
        destruct (IH s') as [N H]. cbn zeta in N, H.
        destruct (log_due (old_txt s) s') eqn:L.
        -- assert (Hne : old_txt s <> Some (predicted_labels s')).
           { apply py_ne_true_iff. unfold log_due in L.
             now destruct (annotations s'). }
           cbn [app]. split; [|exact Hne].
           destruct (printed (all_events _)) as [|v rest] eqn:Ev; [exact I|].
           split; [|exact N]. rewrite Ho in H. congruence.
        -- cbn [app]. split; [exact N|]. now rewrite <- Ho.
      * unfold all_events. cbn [ticks epilogue List.concat].
        rewrite O. cbn. split; exact I.
Qed.

(** A failed capture on a tick that does not quit ends the run there,
    whatever the script holds after it. *)
Lemma failed_capture_ends_run (t : Tick) (s : Store) :
  (pressed t =? ord quit_key) = false ->
  grabbed t = None ->
  exists e s',
    forall post,
      loop (t :: post) s
      = {| ticks := [[WaitKey wait_key_delay; VidCaptureRead]];
           epilogue := []; outcome := Raised e; final := s' |}.
Proof.
  intros Hk Hg.
  destruct (execute_body_raises NO_FACE_LABEL classifier frame_period_s
              None (set_out [WaitKey wait_key_delay] s) (or_introl eq_refl))
    as (e & s' & E & O).
  exists e, s'. intros post. cbn [execute_loop]. rewrite Hk, Hg, E.
  now rewrite O.
Qed.

(** [execute] returns exactly when a poll reads the quit key while the
    loop is still running. *)
Lemma returned_iff_quit (script : list Tick) (s : Store) :
  outcome (loop script s) = Returned
  <-> exists pre t post,
        script = pre ++ t :: post
        /\ outcome (loop pre s) = Polling
        /\ pressed t = ord quit_key.
Proof.
  split.
  - revert s. induction script as [|t script IH]; intros s H.
    + discriminate.
    + cbn [execute_loop] in H.
      destruct (pressed t =? ord quit_key) eqn:Hk.
      * exists [], t, script. apply Z.eqb_eq in Hk. now repeat split.
      * destruct (execute_body NO_FACE_LABEL classifier frame_period_s
                                (grabbed t) (set_out [WaitKey wait_key_delay] s))
          as [[] s'|e s'] eqn:E; [|discriminate].
        cbn [outcome] in H.
        destruct (IH s' H) as (pre & t' & post & -> & Hp & Hq).
        exists (t :: pre), t', post. repeat split; [|exact Hq].
        cbn [execute_loop]. now rewrite Hk, E.
  - intros (pre & t & post & -> & Hp & Hq).
    rewrite execute_loop_app by exact Hp. cbn [outcome execute_loop].
    apply Z.eqb_eq in Hq. now rewrite Hq.
Qed.

End Exits.

(** ** Pairing *)

Lemma py_zip3_length {A B C} (a : list A) (b : list B) (c : list C) :
  List.length (py_zip3 a b c)
  = Nat.min (List.length a) (Nat.min (List.length b) (List.length c)).
Proof.
  revert b c. induction a as [|x1 a IH]; intros [|x2 b] [|x3 c]; cbn; auto.
Qed.

Lemma py_zip3_nth_error {A B C} (a : list A) (b : list B) (c : list C) (i : nat) :
  nth_error (py_zip3 a b c) i
  = match nth_error a i, nth_error b i, nth_error c i with
    | Some x1, Some x2, Some x3 => Some (x1, x2, x3)
    | _, _, _ => None
    end.
Proof.
  revert b c i. induction a as [|x1 a IH]; intros b c i.
  - cbn. now destruct i.
  - destruct b as [|x2 b].
    + cbn. destruct i; cbn; [reflexivity|]. now destruct (nth_error a i).
    + destruct c as [|x3 c].
      * cbn. destruct i; cbn; [reflexivity|].
        destruct (nth_error a i); [|reflexivity]. now destruct (nth_error b i).
      * destruct i; cbn; [reflexivity | apply IH].
Qed.

(** C3.  On a due tick on which the classifier returns the labels
    [a; b; c], the rectangles [R1; R2] and the landmark sets [L1; L2; L3],
    the annotation set the tick stores and renders has exactly the two
    entries (a, R1, L1) and (b, R2, L2): the frame shown carries the
    drawings of these two and nothing else.  In general [zip] pairs the
    three sequences index by index and stops at the shortest; what lies
    beyond is dropped without an error. *)
Theorem pairing_truncates_to_shortest
        (NFL : string) (clf : ImageClassifier) (q : Q) (px : nat) (s : Store)
        (a b c : string) (R1 R2 : Rect) (L1 L2 L3 : Landmarks) :
  Qnum q <> 0 ->
  due q (frame_cnt s + 1) = true ->
  classify clf (CLAHE (COLOR_BGR2GRAY (fresh px))) = [a; b; c] ->
  extract_face_rectangle clf (Some (fresh px)) = [R1; R2] ->
  extract_landmark_points clf (Some (fresh px)) = [L1; L2; L3] ->
  (exists s',
      execute_body NFL clf q (Some px) s = Ok tt s'
      /\ annotations s' = [(a, R1, L1); (b, R2, L2)]
      /\ frame s' = Some {| pixels := px;
                            painted := face_draws NFL (a, R1, L1)
                                       ++ face_draws NFL (b, R2, L2) |})
  /\ (forall (ls : list string) (rs : list Rect) (lms : list Landmarks),
         List.length (py_zip3 ls rs lms)
         = Nat.min (List.length ls) (Nat.min (List.length rs) (List.length lms))
         /\ forall i : nat,
             nth_error (py_zip3 ls rs lms) i
             = match nth_error ls i, nth_error rs i, nth_error lms i with
               | Some l, Some r, Some m => Some (l, r, m)
               | _, _, _ => None
               end).
Proof.
  intros Hq Hdue Hl Hr Hm. split.
  - destruct (execute_body_picture NFL clf q px s Hq) as (s' & E & D).
    exists s'. split; [exact E|].
    assert (EA : annotations s' = [(a, R1, L1); (b, R2, L2)]).
    { unfold annotations.
      rewrite (td_predicted_labels _ _ _ _ _ _ D), (td_rectangles _ _ _ _ _ _ D),
        (td_landmark_points_list _ _ _ _ _ _ D), Hdue, Hl, Hr, Hm.
      reflexivity. }
    split; [exact EA|].
    rewrite (td_frame _ _ _ _ _ _ D), EA. unfold painted_with. cbn.
    now rewrite app_nil_r.
  - intros ls rs lms. split.
    + apply py_zip3_length.
    + intros i. apply py_zip3_nth_error.
Qed.

Lemma pairing_truncates_to_shortest_witness :
  exists s',
    execute_body "noface"
      {| classify := fun _ => ["happy"; "sad"; "angry"];
         extract_face_rectangle := fun _ => [(10, 10, 50, 50); (100, 20, 40, 40)];
         extract_landmark_points :=
           fun _ => [Some [(20, 20)]; None; Some [(7, 7)]] |}
      (1 # 100) (Some 1%nat) (initial) = Ok tt s'
    /\ annotations s' = [("happy", (10, 10, 50, 50), Some [(20, 20)]);
                         ("sad", (100, 20, 40, 40), None)]
    /\ frame s'
       = Some {| pixels := 1;
                 painted :=
                   face_draws "noface" ("happy", (10, 10, 50, 50), Some [(20, 20)])
                   ++ face_draws "noface" ("sad", (100, 20, 40, 40), None) |}.
Proof.
  apply (pairing_truncates_to_shortest "noface"
           {| classify := fun _ => ["happy"; "sad"; "angry"];
              extract_face_rectangle := fun _ => [(10, 10, 50, 50); (100, 20, 40, 40)];
              extract_landmark_points :=
                fun _ => [Some [(20, 20)]; None; Some [(7, 7)]] |}
           (1 # 100) 1%nat initial "happy" "sad" "angry"
           (10, 10, 50, 50) (100, 20, 40, 40)
           (Some [(20, 20)]) None (Some [(7, 7)])).
  - discriminate.
  - reflexivity.
  - reflexivity.
  - reflexivity.
  - reflexivity.
Defined.

(** ** The cadence of [execute] *)

(** In binary64, 0.75 * 100 is exactly 75. *)
Lemma default_period_is : period_is three_quarters (model_of three_quarters) 75.
Proof.
  unfold period_is. split; [vm_compute; reflexivity|].
  split; [vm_compute; reflexivity|]. split; [reflexivity|].
  intros H. vm_compute in H. discriminate H.
Qed.

Lemma default_period : ((3 # 4) * inject_Z 100 == inject_Z 75)%Q.
Proof. reflexivity. Qed.

Lemma steady_script_ok (n : nat) :
  forallb (tick_ok "q") (steady_script n) = true.
Proof.
  unfold steady_script. apply forallb_forall. intros t Ht.
  apply in_map_iff in Ht as (k & <- & _). reflexivity.
Qed.

Lemma steady_script_length (n : nat) : List.length (steady_script n) = n.
Proof. unfold steady_script. now rewrite length_map, length_seq. Qed.

(** C1.  With the default [frame_period_s = 0.75], so that the period is
    75 ticks, in a run whose ticks all go on with a captured picture: tick
    [k] calls each of [classify], [extract_face_rectangle] and
    [extract_landmark_points] once if [k] is a multiple of 75 and not at
    all otherwise, and the counter after tick [k] is [k mod 75], that is 0
    exactly on the ticks that classified. *)
Theorem cadence_every_75_ticks
        (NFL : string) (clf : ImageClassifier) (script : list Tick) (k : nat) :
  forallb (tick_ok "q") script = true ->
  (1 <= k <= List.length script)%nat ->
  let r := execute_default NFL clf script in
  let n := if Z.of_nat k mod 75 =? 0 then 1%nat else 0%nat in
  count is_classify (tick_events r k) = n
  /\ count is_extract_face_rectangle (tick_events r k) = n
  /\ count is_extract_landmark_points (tick_events r k) = n
  /\ frame_cnt (final (execute_default NFL clf (firstn k script)))
     = Z.of_nat k mod 75
  /\ (frame_cnt (final (execute_default NFL clf (firstn k script))) = 0
      <-> Z.of_nat k mod 75 = 0).
Proof.
  intros Hok Hk. cbn zeta. unfold execute_default.
  destruct (classifier_calls_at_tick NFL clf 33 "q" (3 # 4) 75 default_period
              eq_refl script Hok k Hk) as (C1 & C2 & C3).
  pose proof (frame_cnt_after NFL clf 33 "q" (3 # 4) 75 default_period
                eq_refl script Hok k (proj2 Hk)) as F.
  unfold after_ticks in F.
  repeat split; try assumption; rewrite F; auto.
Qed.

Lemma cadence_every_75_ticks_witness :
  count is_classify
        (tick_events (execute_default "noface" stub_classifier (steady_script 150)) 150)
  = 1%nat
  /\ count is_classify
           (tick_events (execute_default "noface" stub_classifier (steady_script 150)) 149)
     = 0%nat.
Proof.
  split.
  - apply (cadence_every_75_ticks "noface" stub_classifier (steady_script 150) 150).
    + apply steady_script_ok.
    + rewrite steady_script_length. lia.
  - apply (cadence_every_75_ticks "noface" stub_classifier (steady_script 150) 149).
    + apply steady_script_ok.
    + rewrite steady_script_length. lia.
Defined.

(** C2.  Let [frame_period_s] give a period of [P] ticks (its binary64
    product by 100 is the whole number [P]) and let tick [N], a multiple
    of [P], classify and leave the annotation set [A].  On each of the ticks
    [N + 1 .. N + P - 1] the loop polls, reads and shows the picture it
    just captured with exactly the drawings of [A] on it; it calls none of
    the classifier's operations, and the three annotation locals are those
    tick [N] left. *)
Theorem stale_annotations_rendered
        (NFL : string) (clf : ImageClassifier) (delay : Z) (quit_key : ascii)
        (frame_period_s : spec_float) (q : Q) (P : Z) (script : list Tick) (N j : nat) :
  period_is frame_period_s q P ->
  forallb (tick_ok quit_key) script = true ->
  (1 <= N)%nat ->
  Z.of_nat N mod P = 0 ->
  1 <= Z.of_nat j <= P - 1 ->
  (N + j <= List.length script)%nat ->
  let r := execute NFL clf delay quit_key q script in
  let after := after_ticks NFL clf delay quit_key q script in
  let A := py_zip3
             (classify clf (CLAHE (COLOR_BGR2GRAY (fresh (picture script N)))))
             (extract_face_rectangle clf (Some (fresh (picture script N))))
             (extract_landmark_points clf (Some (fresh (picture script N)))) in
  annotations (after N) = A
  /\ tick_events r (N + j)
     = [WaitKey delay; VidCaptureRead;
        Imshow "Emotion Detection"
               {| pixels := picture script (N + j);
                  painted := flat_map (face_draws NFL) A |}]
  /\ count is_classifier_call (tick_events r (N + j)) = 0%nat
  /\ predicted_labels (after (N + j)%nat) = predicted_labels (after N)
  /\ rectangles (after (N + j)%nat) = rectangles (after N)
  /\ landmark_points_list (after (N + j)%nat) = landmark_points_list (after N).
Proof.
  intros (_ & Hq & HP & _) Hok HN1 HN Hj Hlen. cbn zeta.
  assert (EA := due_tick_annotations NFL clf delay quit_key q P Hq HP script Hok
                  N ltac:(lia) HN).
  destruct (stale_window NFL clf delay quit_key q P Hq HP script Hok N j HN
              ltac:(lia) Hlen) as (W1 & W2 & W3).
  destruct (stale_window NFL clf delay quit_key q P Hq HP script Hok N (j - 1) HN
              ltac:(lia) ltac:(lia)) as (V1 & V2 & V3).
  assert (Hmod : Z.of_nat (N + j) mod P <> 0).
  { rewrite Nat2Z.inj_add, Z.add_mod, HN, Z.add_0_l, Z.mod_mod by lia.
    rewrite Z.mod_small by lia. lia. }
  assert (Ev := stale_tick_events NFL clf delay quit_key q P Hq HP script Hok
                  (N + j) ltac:(lia) Hmod).
  replace (N + j - 1)%nat with (N + (j - 1))%nat in Ev by lia.
  assert (EB : annotations (after_ticks NFL clf delay quit_key q script (N + (j - 1)))
               = annotations (after_ticks NFL clf delay quit_key q script N)).
  { unfold annotations. now rewrite V1, V2, V3. }
  rewrite EB, EA in Ev.
  split; [exact EA|]. split; [exact Ev|]. split; [now rewrite Ev|].
  auto.
Qed.

Lemma stale_annotations_rendered_witness :
  tick_events (execute "noface" stub_classifier 33 "q" (model_of three_quarters) (steady_script 150)) 149
  = [WaitKey 33; VidCaptureRead;
     Imshow "Emotion Detection"
            {| pixels := 149;
               painted := [Rectangle (10, 10) (60, 60) BLUE_COLOR 2;
                           Circle (20, 20) 1 WHITE_COLOR (-1);
                           PutText "happy" (20, 0) FONT 1 BLUE_COLOR 2 LINE_AA] |}].
Proof.
  apply (stale_annotations_rendered "noface" stub_classifier 33 "q" three_quarters (model_of three_quarters) 75
           (steady_script 150) 75 74).
  - exact default_period_is.
  - apply steady_script_ok.
  - lia.
  - reflexivity.
  - lia.
  - rewrite steady_script_length. lia.
Defined.

(** C10.  Let the period be [P] ticks.  On every tick before tick [P],
    the first due one, the loop polls, reads and shows the captured
    picture with nothing drawn on it and writes no log line: the label
    local is still the empty string, so the paired set is empty although
    the rectangle and landmark locals hold their one placeholder each. *)
Theorem nothing_rendered_before_first_due_tick
        (NFL : string) (clf : ImageClassifier) (delay : Z) (quit_key : ascii)
        (q : Q) (P : Z) (script : list Tick) (k : nat) :
  (q * inject_Z 100 == inject_Z P)%Q ->
  0 < P ->
  forallb (tick_ok quit_key) script = true ->
  (1 <= k <= List.length script)%nat ->
  Z.of_nat k < P ->
  let r := execute NFL clf delay quit_key q script in
  let now := after_ticks NFL clf delay quit_key q script k in
  tick_events r k
  = [WaitKey delay; VidCaptureRead;
     Imshow "Emotion Detection" {| pixels := picture script k; painted := [] |}]
  /\ printed (tick_events r k) = []
  /\ annotations now = []
  /\ predicted_labels now = PStr ""
  /\ rectangles now = [(0, 0, 0, 0)]
  /\ landmark_points_list now = [Some [(0, 0)]]
  /\ old_txt now = None.
Proof.
  intros Hq HP Hok Hk HkP. cbn zeta.
  destruct (quiet_prefix NFL clf delay quit_key q P Hq HP script Hok k
              ltac:(lia) HkP) as (Q1 & Q2 & Q3 & Q4).
  destruct (quiet_prefix NFL clf delay quit_key q P Hq HP script Hok (k - 1)
              ltac:(lia) ltac:(lia)) as (B1 & B2 & B3 & _).
  assert (Hmod : Z.of_nat k mod P <> 0) by (rewrite Z.mod_small; lia).
  assert (Ev := stale_tick_events NFL clf delay quit_key q P Hq HP script Hok
                  k Hk Hmod).
  unfold annotations in Ev. rewrite B1, B2, B3 in Ev. cbn in Ev.
  split; [exact Ev|]. split; [now rewrite Ev|].
  unfold annotations. rewrite Q1, Q2, Q3. repeat split. exact Q4.
Qed.

Lemma nothing_rendered_before_first_due_tick_witness :
  tick_events (execute "noface" stub_classifier 33 "q" (3 # 4) (steady_script 100)) 74
  = [WaitKey 33; VidCaptureRead;
     Imshow "Emotion Detection" {| pixels := 74; painted := [] |}].
Proof.
  apply (nothing_rendered_before_first_due_tick "noface" stub_classifier 33 "q"
           (3 # 4) 75 (steady_script 100) 74).
  - reflexivity.
  - reflexivity.
  - apply steady_script_ok.
  - rewrite steady_script_length. lia.
  - lia.
Defined.

(** ** The change log *)

(** C4, as the code has it.  In a run whose ticks all go on with a
    captured picture, tick [k] writes the log line exactly when the paired
    annotation set is non-empty and the label collection differs from the
    one logged last; it then writes it once, with the current collection,
    which becomes the one logged last.  Otherwise the tick writes nothing
    and the last logged collection stays.  Hence no two successive log
    lines of the run carry the same collection, and an unchanged
    collection is not logged again tick after tick. *)
Theorem change_log_on_rendered_change
        (NFL : string) (clf : ImageClassifier) (delay : Z) (quit_key : ascii)
        (q : Q) (script : list Tick) :
  Qnum q <> 0 ->
  forallb (tick_ok quit_key) script = true ->
  let r := execute NFL clf delay quit_key q script in
  let after := after_ticks NFL clf delay quit_key q script in
  (forall k : nat,
      (1 <= k <= List.length script)%nat ->
      let fires :=
        match annotations (after k) with
        | [] => false
        | _ :: _ => py_ne (old_txt (after (k - 1)%nat)) (predicted_labels (after k))
        end in
      printed (tick_events r k)
      = (if fires then [predicted_labels (after k)] else [])
      /\ old_txt (after k)
         = (if fires then Some (predicted_labels (after k))
            else old_txt (after (k - 1)%nat)))
  /\ no_repeat (printed (all_events r)).
Proof.
  intros Hq Hok. cbn zeta. split.
  - intros k Hk.
    destruct (tick_of_run NFL clf delay quit_key q Hq script k Hok Hk) as [D E].
    fold (after_ticks NFL clf delay quit_key q script (k - 1)) in D.
    fold (after_ticks NFL clf delay quit_key q script k) in D, E.
    rewrite E.
    destruct (completed_tick_calls NFL clf delay q _ _ _ D) as (_ & _ & Pr).
    split; [exact Pr|].
    exact (td_old_txt _ _ _ _ _ _ D).
  - exact (proj1 (log_chain NFL clf delay quit_key q script initial)).
Qed.

Lemma change_log_on_rendered_change_witness :
  printed (tick_events (execute "noface" stub_classifier 33 "q" (3 # 4)
                                (steady_script 150)) 75)
  = [PList ["happy"]]
  /\ printed (tick_events (execute "noface" stub_classifier 33 "q" (3 # 4)
                                   (steady_script 150)) 150)
     = []
  /\ no_repeat (printed (all_events (execute "noface" stub_classifier 33 "q" (3 # 4)
                                             (steady_script 150)))).
Proof.
  pose proof (change_log_on_rendered_change "noface" stub_classifier 33 "q" (3 # 4)
                (steady_script 150) ltac:(discriminate) (steady_script_ok 150))
    as [T N].
  split; [|split].
  - apply (T 75%nat). rewrite steady_script_length. lia.
  - apply (T 150%nat). rewrite steady_script_length. lia.
  - exact N.
Defined.

(** C4 as stated fails.  With the default period, a classifier that on
    tick 75 reports one happy face and on tick 150 the label "sad" with
    no rectangle: after tick 150 the label collection is ["sad"], the
    last logged one is still ["happy"], and tick 150 wrote no log line;
    the whole run logged once. *)
Lemma label_change_without_log_record :
  let r := execute_default "noface" uneven_classifier (steady_script 150) in
  predicted_labels (final r) = PList ["sad"]
  /\ old_txt (final r) = Some (PList ["happy"])
  /\ printed (tick_events r 150) = []
  /\ printed (all_events r) = [PList ["happy"]].
Proof. vm_compute. repeat split. Qed.

(** ** Exit paths *)

(** C5, as the code has it.  Whatever the script, [destroyAllWindows] and
    the capture device's [release] are each called once when [execute]
    returns and are not called at all when it does not return: neither
    while the loop is running nor when an exception leaves it.  [execute]
    returns exactly when a poll reads the quit key while the loop is
    running, and the two calls then follow that poll, in this order. *)
Theorem teardown_once_when_quit
        (NFL : string) (clf : ImageClassifier) (delay : Z) (quit_key : ascii)
        (q : Q) (script : list Tick) :
  let r := execute NFL clf delay quit_key q script in
  let n := match outcome r with Returned => 1%nat | _ => 0%nat end in
  count is_destroy (all_events r) = n
  /\ count is_release (all_events r) = n
  /\ (outcome r = Returned ->
      epilogue r = [WaitKey delay; DestroyAllWindows; VidCaptureRelease])
  /\ (outcome r = Returned
      <-> exists pre t post,
            script = pre ++ t :: post
            /\ outcome (execute NFL clf delay quit_key q pre) = Polling
            /\ pressed t = ord quit_key).
Proof.
  cbn zeta. unfold execute.
  destruct (teardown_counts NFL clf delay quit_key q script initial) as [C1 C2].
  split; [exact C1|]. split; [exact C2|]. clear C1 C2.
  split; [|apply returned_iff_quit].
  generalize initial. induction script as [|t script IH]; intros s.
  - discriminate.
  - cbn [execute_loop]. destruct (pressed t =? ord quit_key); [reflexivity|].
    destruct (execute_body NFL clf q (grabbed t) _) as [[] s'|e s'].
    + cbn [outcome epilogue]. apply IH.
    + discriminate.
Qed.

Lemma teardown_once_when_quit_witness :
  epilogue (execute "noface" stub_classifier 33 "q" (3 # 4)
                    (steady_script 2 ++ [quit_tick]))
  = [WaitKey 33; DestroyAllWindows; VidCaptureRelease].
Proof.
  apply (teardown_once_when_quit "noface" stub_classifier 33 "q" (3 # 4)
           (steady_script 2 ++ [quit_tick])).
  reflexivity.
Defined.

(** C5 as stated fails on the capture failure.  With the defaults, 74
    good ticks and then, on the due tick 75, a capture that delivers
    nothing: [cvtColor] rejects the absent frame, the run ends by that
    exception with neither [destroyAllWindows] nor [release] called, and
    the key q that would have followed is never polled. *)
Lemma capture_failure_skips_teardown :
  let r := execute_default "noface" stub_classifier
                           (steady_script 74 ++ [dropout; quit_tick]) in
  outcome r = Raised Cv2Error
  /\ count is_destroy (all_events r) = 0%nat
  /\ count is_release (all_events r) = 0%nat
  /\ List.length (ticks r) = 75%nat
  /\ tick_events r 75 = [WaitKey 33; VidCaptureRead]
  /\ epilogue r = [].
Proof. vm_compute. repeat split. Qed.

(** C6.  When a run has come through the ticks [pre] and the next tick,
    without the quit key, captures nothing, the run ends on that tick by
    an exception: the tick polled and read once and did nothing more, no
    later tick of the script is entered (the run is the same whatever
    follows), so the read is not tried again. *)
Theorem capture_failure_is_fatal
        (NFL : string) (clf : ImageClassifier) (delay : Z) (quit_key : ascii)
        (q : Q) (pre post : list Tick) (t : Tick) :
  outcome (execute NFL clf delay quit_key q pre) = Polling ->
  pressed t <> ord quit_key ->
  grabbed t = None ->
  let r := execute NFL clf delay quit_key q (pre ++ t :: post) in
  (exists e, outcome r = Raised e)
  /\ List.length (ticks r) = S (List.length pre)
  /\ tick_events r (S (List.length pre)) = [WaitKey delay; VidCaptureRead]
  /\ count is_read (tick_events r (S (List.length pre))) = 1%nat
  /\ r = execute NFL clf delay quit_key q (pre ++ [t]).
Proof.
  intros Hpre Hk Hg. cbn zeta. unfold execute in *.
  apply Z.eqb_neq in Hk.
  destruct (failed_capture_ends_run NFL clf delay quit_key q t
              (final (execute_loop NFL clf delay quit_key q pre initial)) Hk Hg)
    as (e & s' & E).
  rewrite !execute_loop_app by exact Hpre. rewrite (E post), (E []).
  cbn [ticks epilogue outcome final].
  assert (L := polling_length NFL clf delay quit_key q pre initial Hpre).
  split; [now exists e|]. split.
  { rewrite length_app, L. cbn. lia. }
  assert (Ev : tick_events
                 {| ticks := ticks (execute_loop NFL clf delay quit_key q pre initial)
                             ++ [[WaitKey delay; VidCaptureRead]];
                    epilogue := []; outcome := Raised e; final := s' |}
                 (S (List.length pre))
               = [WaitKey delay; VidCaptureRead]).
  { unfold tick_events. cbn [ticks].
    rewrite app_nth2 by lia.
    replace (S (List.length pre) - 1 - _)%nat with 0%nat by lia. reflexivity. }
  split; [exact Ev|]. split; [now rewrite Ev | reflexivity].
Qed.

Lemma capture_failure_is_fatal_witness :
  tick_events (execute "noface" stub_classifier 33 "q" (3 # 4)
                       (steady_script 2 ++ dropout :: steady_script 3))
              (S (List.length (steady_script 2)))
  = [WaitKey 33; VidCaptureRead].
Proof.
  apply (capture_failure_is_fatal "noface" stub_classifier 33 "q" (3 # 4)
           (steady_script 2) (steady_script 3) dropout).
  - reflexivity.
  - discriminate.
  - reflexivity.
Defined.

(** * Further properties of [main.py] *)

(** ** The renderer on a buffer *)

(** X2.  The [for] statement of [execute], run on a buffer over a list of
    paired annotations whose coordinates all fit a C [int], completes and
    issues its drawing calls face by face in the order of the list: the
    box from (x, y) to (x + w, y + h), then one marker per landmark point,
    then the label text; the counter and the three annotation locals are
    untouched. *)
Theorem faces_rendered_in_order
        (NFL : string) (items : list (string * Rect * Landmarks))
        (s : Store) (f : Frame) :
  frame s = Some f ->
  forallb drawable items = true ->
  exists s',
    for_each items (render_face NFL) s = Ok tt s'
    /\ frame s'
       = Some {| pixels := pixels f;
                 painted :=
                   painted f
                   ++ flat_map
                        (fun item : string * Rect * Landmarks =>
                           let '(lbl, (x0, y0, w0, h0), lm) := item in
                           [Rectangle (x0, y0) (x0 + w0, y0 + h0) BLUE_COLOR 2]
                           ++ match lm with
                              | Some pts =>
                                  map (fun p => Circle p 1 WHITE_COLOR (-1)) pts
                              | None => []
                              end
                           ++ (if String.eqb lbl NFL
                               then [PutText (upper lbl) (320, 245) FONT 1
                                             BLUE_COLOR 2 LINE_AA]
                               else [])
                           ++ [PutText lbl (x0 + 10, y0 - 10) FONT 1
                                       BLUE_COLOR 2 LINE_AA])
                        items |}
    /\ frame_cnt s' = frame_cnt s
    /\ predicted_labels s' = predicted_labels s
    /\ rectangles s' = rectangles s
    /\ landmark_points_list s' = landmark_points_list s.
Proof.
  intros Hf _.
  destruct (for_each_render_face NFL items s f Hf) as (s' & E & F & L & _).
  exists s'. split; [exact E|]. split; [|exact L].
  rewrite F. unfold painted_with. do 3 f_equal.
  apply flat_map_ext. intros [[lbl [[[x0 y0] w0] h0]] lm].
  unfold face_draws, label_draws, landmark_draws, corner_text, centre_text.
  cbn [app]. f_equal. f_equal.
  - destruct lm as [pts|]; [|reflexivity]. apply map_ext. now intros [a b].
  - now destruct (String.eqb lbl NFL).
Qed.

Lemma faces_rendered_in_order_witness :
  exists s',
    for_each [("happy", (10, 10, 50, 50), Some [(20, 20)])]
             (render_face "noface")
             (set_frame (Some (fresh 1)) (initial)) = Ok tt s'
    /\ frame s'
       = Some {| pixels := 1;
                 painted := [Rectangle (10, 10) (60, 60) BLUE_COLOR 2;
                             Circle (20, 20) 1 WHITE_COLOR (-1);
                             PutText "happy" (20, 0) FONT 1 BLUE_COLOR 2 LINE_AA] |}.
Proof.
  destruct (faces_rendered_in_order "noface"
              [("happy", (10, 10, 50, 50), Some [(20, 20)])]
              (set_frame (Some (fresh 1)) initial) (fresh 1) eq_refl eq_refl)
    as (s' & E & F & _).
  exists s'. split; [exact E | exact F].
Defined.

(** ** Every completed tick *)

Section Ticks.

Variable NO_FACE_LABEL : string.
Variable classifier : ImageClassifier.
Variable wait_key_delay : Z.
Variable quit_key : ascii.
Variable frame_period_s : Q.

Local Abbreviation loop := (execute_loop NO_FACE_LABEL classifier wait_key_delay
                                         quit_key frame_period_s).
Local Abbreviation run := (execute NO_FACE_LABEL classifier wait_key_delay
                                   quit_key frame_period_s).

Lemma polling_epilogue (script : list Tick) (s : Store) :
  outcome (loop script s) = Polling -> epilogue (loop script s) = [].
Proof.
  revert s. induction script as [|t script IH]; intros s H.
  - reflexivity.
  - cbn [execute_loop] in *.
    destruct (pressed t =? ord quit_key); [discriminate|].
    destruct (execute_body _ _ _ _ _) as [[] s'|e s']; [|discriminate].
    cbn [outcome epilogue] in *. now apply IH.
Qed.

Hypothesis period_nonzero : Qnum frame_period_s <> 0.

Lemma forallb_snoc {A} (p : A -> bool) (l : list A) (a : A) :
  forallb p (l ++ [a]) = true -> forallb p l = true /\ p a = true.
Proof.
  rewrite forallb_app. cbn. rewrite andb_true_r. apply andb_true_iff.
Qed.

(** The calls of a run, tick by tick: those of the run without its last
    tick, then those of the last tick. *)
Lemma all_events_snoc (pre : list Tick) (t : Tick) :
  forallb (tick_ok quit_key) (pre ++ [t]) = true ->
  all_events (run (pre ++ [t]))
  = all_events (run pre)
    ++ tick_events (run (pre ++ [t])) (S (List.length pre)).
Proof.
  intros Hok. destruct (forallb_snoc _ _ _ Hok) as [Hpre Ht].
  apply tick_ok_inv in Ht as [Hk [px Hg]].
  assert (Hp : outcome (loop pre initial) = Polling)
    by (apply ok_script_polling; assumption).
  destruct (run_step NO_FACE_LABEL classifier wait_key_delay quit_key
              frame_period_s period_nonzero pre [] t px initial Hp Hk Hg)
    as (s' & D & F & N).
  unfold tick_events. replace (S (List.length pre) - 1)%nat with (List.length pre) by lia.
  unfold execute. rewrite N.
  rewrite execute_loop_app by exact Hp.
  unfold all_events. cbn [ticks epilogue].
  rewrite (polling_epilogue pre initial Hp), app_nil_r.
  cbn [execute_loop]. rewrite Hk, Hg.
  destruct (execute_body_picture NO_FACE_LABEL classifier frame_period_s px
              (set_out [WaitKey wait_key_delay] (final (loop pre initial)))
              period_nonzero) as (s2 & E & _).
  rewrite E. cbn [ticks epilogue]. rewrite concat_app. cbn.
  rewrite !app_nil_r. f_equal.
  rewrite <- F. rewrite execute_loop_app by exact Hp. cbn [final execute_loop].
  now rewrite Hk, Hg, E.
Qed.

End Ticks.

(** X3.  In a run whose ticks all go on with a captured picture, whatever
    the (non-zero) period: every tick polls the keyboard once with the
    configured delay, reads the camera once, and ends by showing, in the
    window "Emotion Detection", the picture captured on this very tick
    with exactly the drawings of the current annotation set on it; between
    the read and the display it issues classifier calls and the log line
    only.  Drawings of earlier ticks never pile up on a frame. *)
Theorem every_tick_shows_the_fresh_frame
        (NFL : string) (clf : ImageClassifier) (delay : Z) (quit_key : ascii)
        (q : Q) (script : list Tick) (k : nat) :
  Qnum q <> 0 ->
  forallb (tick_ok quit_key) script = true ->
  (1 <= k <= List.length script)%nat ->
  let r := execute NFL clf delay quit_key q script in
  let now := after_ticks NFL clf delay quit_key q script k in
  let shown := {| pixels := picture script k;
                  painted := flat_map (face_draws NFL) (annotations now) |} in
  (exists mid,
      tick_events r k
      = [WaitKey delay; VidCaptureRead] ++ mid ++ [Imshow "Emotion Detection" shown]
      /\ Forall (fun e => is_classifier_call e = true \/ exists v, e = Print v) mid)
  /\ count is_waitkey (tick_events r k) = 1%nat
  /\ count is_read (tick_events r k) = 1%nat
  /\ count is_imshow (tick_events r k) = 1%nat
  /\ frame now = Some shown.
Proof.
  intros Hq Hok Hk. cbn zeta.
  destruct (tick_of_run NFL clf delay quit_key q Hq script k Hok Hk) as [D E].
  fold (after_ticks NFL clf delay quit_key q script (k - 1)) in D.
  fold (after_ticks NFL clf delay quit_key q script k) in D, E.
  rewrite E, (td_out _ _ _ _ _ _ D), (td_frame _ _ _ _ _ _ D).
  cbn [out set_out frame_cnt old_txt].
  set (now := after_ticks NFL clf delay quit_key q script k).
  set (before := after_ticks NFL clf delay quit_key q script (k - 1)).
  unfold painted_with, fresh. cbn [pixels painted app].
  split.
  - eexists. split.
    + cbn [app]. rewrite app_assoc. reflexivity.
    + apply Forall_app. split.
      * destruct (due q (frame_cnt before + 1)); repeat constructor.
      * destruct (log_due (old_txt before) now); constructor.
        -- right. eexists. reflexivity.
        -- constructor.
  - change (WaitKey delay :: VidCaptureRead :: ?l)
      with ([WaitKey delay; VidCaptureRead] ++ l).
    rewrite !count_app.
    destruct (due q (frame_cnt before + 1)), (log_due (old_txt before) now);
      cbn; repeat split.
Qed.

Lemma every_tick_shows_the_fresh_frame_witness :
  count is_imshow
        (tick_events (execute "noface" stub_classifier 33 "q" (3 # 4)
                              (steady_script 80)) 75)
  = 1%nat.
Proof.
  apply (every_tick_shows_the_fresh_frame "noface" stub_classifier 33 "q" (3 # 4)
           (steady_script 80) 75).
  - discriminate.
  - apply steady_script_ok.
  - rewrite steady_script_length. lia.
Defined.

(** X4.  After every completed tick, a non-empty annotation set has been
    logged: the collection logged last is the current label collection.
    What is drawn on the screen is never ahead of the log. *)
Theorem rendered_labels_are_logged
        (NFL : string) (clf : ImageClassifier) (delay : Z) (quit_key : ascii)
        (q : Q) (script : list Tick) (k : nat) :
  Qnum q <> 0 ->
  forallb (tick_ok quit_key) script = true ->
  (1 <= k <= List.length script)%nat ->
  let now := after_ticks NFL clf delay quit_key q script k in
  annotations now <> [] ->
  old_txt now = Some (predicted_labels now).
Proof.
  intros Hq Hok Hk. cbn zeta. intros Hne.
  destruct (tick_of_run NFL clf delay quit_key q Hq script k Hok Hk) as [D _].
  destruct (tick_settles _ _ _ _ _ _ D) as [E|E]; [contradiction | exact E].
Qed.

Lemma rendered_labels_are_logged_witness :
  old_txt (after_ticks "noface" stub_classifier 33 "q" (3 # 4) (steady_script 80) 80)
  = Some (predicted_labels
            (after_ticks "noface" stub_classifier 33 "q" (3 # 4) (steady_script 80) 80)).
Proof.
  apply (rendered_labels_are_logged "noface" stub_classifier 33 "q" (3 # 4)
           (steady_script 80) 80).
  - discriminate.
  - apply steady_script_ok.
  - rewrite steady_script_length. lia.
  - vm_compute. discriminate.
Defined.

(** ** Runs with a period of [P] ticks *)

Lemma div_next (P m : Z) :
  0 < P -> 0 <= m ->
  (m + 1) / P = m / P + (if (m + 1) mod P =? 0 then 1 else 0).
Proof.
  intros HP Hm.
  pose proof (Z.div_mod m P ltac:(lia)) as Dm.
  pose proof (Z.mod_pos_bound m P HP) as Bm.
  pose proof (Z.div_mod (m + 1) P ltac:(lia)) as Dn.
  pose proof (Z.mod_pos_bound (m + 1) P HP) as Bn.
  destruct (Z.eqb_spec ((m + 1) mod P) 0) as [E|E]; nia.
Qed.

(** X5.  For every [frame_period_s] whose binary64 product by 100 is a
    whole number [P] of ticks, in a run whose ticks all go on with a
    captured picture: tick [k] calls each of
    the three classifier operations once if [P] divides [k] and not at all
    otherwise; the counter after tick [k] is [k mod P], so it always stays
    below [P]. *)
Theorem cadence_for_whole_period
        (NFL : string) (clf : ImageClassifier) (delay : Z) (quit_key : ascii)
        (frame_period_s : spec_float) (q : Q) (P : Z) (script : list Tick) (k : nat) :
  period_is frame_period_s q P ->
  forallb (tick_ok quit_key) script = true ->
  (1 <= k <= List.length script)%nat ->
  let r := execute NFL clf delay quit_key q script in
  let now := after_ticks NFL clf delay quit_key q script k in
  let n := if Z.of_nat k mod P =? 0 then 1%nat else 0%nat in
  count is_classify (tick_events r k) = n
  /\ count is_extract_face_rectangle (tick_events r k) = n
  /\ count is_extract_landmark_points (tick_events r k) = n
  /\ frame_cnt now = Z.of_nat k mod P
  /\ 0 <= frame_cnt now < P.
Proof.
  intros (_ & Hq & HP & _) Hok Hk. cbn zeta.
  destruct (classifier_calls_at_tick NFL clf delay quit_key q P Hq HP script Hok
              k Hk) as (C1 & C2 & C3).
  pose proof (frame_cnt_after NFL clf delay quit_key q P Hq HP script Hok k
                (proj2 Hk)) as F.
  repeat split; try assumption; rewrite F; apply Z.mod_pos_bound; exact HP.
Qed.

Lemma cadence_for_whole_period_witness :
  frame_cnt (after_ticks "noface" stub_classifier 33 "q" (model_of three_quarters) (steady_script 80) 80)
  = 80 mod 75.
Proof.
  apply (cadence_for_whole_period "noface" stub_classifier 33 "q" three_quarters (model_of three_quarters) 75
           (steady_script 80) 80).
  - exact default_period_is.
  - apply steady_script_ok.
  - rewrite steady_script_length. lia.
Defined.

(** X6.  With a period of [P] ticks (the binary64 product
    [frame_period_s * 100] is the whole number [P]), on a due tick the
    classifier is asked in the order [classify],
    [extract_face_rectangle], [extract_landmark_points], right after the
    read and before anything is drawn: [classify] gets the equalised
    (CLAHE, clip 2, tiles 8 x 8) grey version of the picture captured on
    this tick, the two others the captured picture itself, still without
    any drawing on it. *)
Theorem classifier_sees_the_undrawn_frame
        (NFL : string) (clf : ImageClassifier) (delay : Z) (quit_key : ascii)
        (frame_period_s : spec_float) (q : Q) (P : Z) (script : list Tick) (k : nat) :
  period_is frame_period_s q P ->
  forallb (tick_ok quit_key) script = true ->
  (1 <= k <= List.length script)%nat ->
  Z.of_nat k mod P = 0 ->
  let r := execute NFL clf delay quit_key q script in
  let captured := {| pixels := picture script k; painted := [] |} in
  exists rest,
    tick_events r k
    = [WaitKey delay; VidCaptureRead;
       Classify (CLAHE_apply 2 (8, 8) (COLOR_BGR2GRAY captured));
       ExtractFaceRectangle (Some captured);
       ExtractLandmarkPoints (Some captured)] ++ rest
    /\ count is_classifier_call rest = 0%nat.
Proof.
  intros (_ & Hq & HP & _) Hok Hk Hdue. cbn zeta.
  rewrite (tick_events_shape NFL clf delay quit_key q P Hq HP script Hok k Hk).
  apply Z.eqb_eq in Hdue. rewrite Hdue.
  eexists. split; [reflexivity|].
  rewrite count_app. now destruct (log_due _ _).
Qed.

Lemma classifier_sees_the_undrawn_frame_witness :
  exists rest,
    tick_events (execute "noface" stub_classifier 33 "q" (model_of three_quarters) (steady_script 80)) 75
    = [WaitKey 33; VidCaptureRead;
       Classify (CLAHE_apply 2 (8, 8)
                             (COLOR_BGR2GRAY {| pixels := 75; painted := [] |}));
       ExtractFaceRectangle (Some {| pixels := 75; painted := [] |});
       ExtractLandmarkPoints (Some {| pixels := 75; painted := [] |})] ++ rest
    /\ count is_classifier_call rest = 0%nat.
Proof.
  apply (classifier_sees_the_undrawn_frame "noface" stub_classifier 33 "q" three_quarters (model_of three_quarters)
           75 (steady_script 80) 75).
  - exact default_period_is.
  - apply steady_script_ok.
  - rewrite steady_script_length. lia.
  - reflexivity.
Defined.

(** X7.  With a period of [P] ticks (the binary64 product
    [frame_period_s * 100] is the whole number [P]), a run of [n] ticks
    that all go on with a captured picture calls [classify] exactly
    [n / P] times (rounded down). *)
Theorem classifications_in_a_run
        (NFL : string) (clf : ImageClassifier) (delay : Z) (quit_key : ascii)
        (frame_period_s : spec_float) (q : Q) (P : Z) (script : list Tick) :
  period_is frame_period_s q P ->
  forallb (tick_ok quit_key) script = true ->
  Z.of_nat (count is_classify (all_events (execute NFL clf delay quit_key q script)))
  = Z.of_nat (List.length script) / P.
Proof.
  intros (_ & Hq & HP & _).
  assert (Hnz : Qnum q <> 0) by exact (proj2 (due_whole_period q P 0 Hq HP)).
  induction script as [|t pre IH] using rev_ind; intros Hok.
  - change (0 = 0 / P). now rewrite Z.div_0_l by lia.
  - destruct (forallb_snoc _ _ _ Hok) as [Hpre _].
    rewrite (all_events_snoc NFL clf delay quit_key q Hnz pre t Hok), count_app.
    destruct (classifier_calls_at_tick NFL clf delay quit_key q P Hq HP
                (pre ++ [t]) Hok (S (List.length pre)))
      as (C & _); [rewrite length_app; cbn; lia|].
    cbn zeta in C. rewrite C, Nat2Z.inj_add, (IH Hpre), length_app. cbn [List.length].
    replace (Z.of_nat (List.length pre + 1)) with (Z.of_nat (List.length pre) + 1) by lia.
    replace (Z.of_nat (S (List.length pre))) with (Z.of_nat (List.length pre) + 1) by lia.
    rewrite (div_next P (Z.of_nat (List.length pre)) HP) by lia.
    now destruct ((Z.of_nat (List.length pre) + 1) mod P =? 0).
Qed.

Lemma classifications_in_a_run_witness :
  Z.of_nat (count is_classify
                  (all_events (execute "noface" stub_classifier 33 "q" (model_of three_quarters)
                                       (steady_script 160))))
  = Z.of_nat (List.length (steady_script 160)) / 75.
Proof.
  apply (classifications_in_a_run "noface" stub_classifier 33 "q" three_quarters (model_of three_quarters) 75
           (steady_script 160)).
  - exact default_period_is.
  - apply steady_script_ok.
Defined.

Lemma due_tick_locals
      (NFL : string) (clf : ImageClassifier) (delay : Z) (quit_key : ascii)
      (q : Q) (P : Z) (script : list Tick) (k : nat) :
  (q * inject_Z 100 == inject_Z P)%Q ->
  0 < P ->
  forallb (tick_ok quit_key) script = true ->
  (1 <= k <= List.length script)%nat ->
  Z.of_nat k mod P = 0 ->
  classified_from clf (picture script k)
                  (after_ticks NFL clf delay quit_key q script k).
Proof.
  intros Hq HP Hok Hk Hdue.
  destruct (tick_done NFL clf delay quit_key q P Hq HP script Hok k Hk) as [D _].
  pose proof (due_at_tick NFL clf delay quit_key q P Hq HP script Hok k Hk) as Hd.
  apply Z.eqb_eq in Hdue. rewrite Hdue in Hd.
  unfold classified_from.
  rewrite (td_predicted_labels _ _ _ _ _ _ D), (td_rectangles _ _ _ _ _ _ D),
    (td_landmark_points_list _ _ _ _ _ _ D).
  cbn [frame_cnt set_out]. rewrite Hd. repeat split.
Qed.

(** The three annotation locals after [k] ticks, by the last due tick. *)
Lemma locals_of_last_due_tick
        (NFL : string) (clf : ImageClassifier) (delay : Z) (quit_key : ascii)
        (q : Q) (P : Z) (script : list Tick) (k : nat) :
  (q * inject_Z 100 == inject_Z P)%Q ->
  0 < P ->
  forallb (tick_ok quit_key) script = true ->
  (k <= List.length script)%nat ->
  let now := after_ticks NFL clf delay quit_key q script k in
  let N := Z.to_nat (P * (Z.of_nat k / P)) in
  (N = 0%nat ->
   predicted_labels now = PStr ""
   /\ rectangles now = [(0, 0, 0, 0)]
   /\ landmark_points_list now = [Some [(0, 0)]])
  /\ (N <> 0%nat ->
      (1 <= N <= k)%nat
      /\ predicted_labels now
         = PList (classify clf (CLAHE (COLOR_BGR2GRAY (fresh (picture script N)))))
      /\ rectangles now = extract_face_rectangle clf (Some (fresh (picture script N)))
      /\ landmark_points_list now
         = extract_landmark_points clf (Some (fresh (picture script N)))).
Proof.
  intros Hq HP Hok Hk. cbn zeta.
  pose proof (Z.div_mod (Z.of_nat k) P ltac:(lia)) as Dk.
  pose proof (Z.mod_pos_bound (Z.of_nat k) P HP) as Bk.
  assert (Hd : 0 <= Z.of_nat k / P) by (apply Z.div_pos; lia).
  set (N := Z.to_nat (P * (Z.of_nat k / P))).
  assert (EN : Z.of_nat N = P * (Z.of_nat k / P)) by (unfold N; nia).
  split; intros HN.
  - assert (Z.of_nat k < P) by lia.
    destruct (quiet_prefix NFL clf delay quit_key q P Hq HP script Hok k Hk)
      as (Q1 & Q2 & Q3 & _); auto.
  - assert (HNmod : Z.of_nat N mod P = 0).
    { rewrite EN, Z.mul_comm. apply Z.mod_mul. lia. }
    set (j := (k - N)%nat).
    assert (Hj : 0 <= Z.of_nat j < P) by (unfold j; lia).
    assert (Ek : k = (N + j)%nat) by (unfold j; lia).
    destruct (stale_window NFL clf delay quit_key q P Hq HP script Hok N j HNmod Hj
                ltac:(lia)) as (W1 & W2 & W3).
    destruct (due_tick_locals NFL clf delay quit_key q P script N Hq HP Hok
                ltac:(lia) HNmod) as (L1 & L2 & L3).
    rewrite <- Ek in W1, W2, W3.
    split; [lia|]. rewrite W1, W2, W3. auto.
Qed.

(** X8.  The label, rectangle and landmark locals always belong
    together.  With a period of [P] ticks (the binary64 product
    [frame_period_s * 100] is the whole number [P]), after [k] ticks,
    with [N] the last multiple of the period up to [k]: before the first due tick ([N = 0]) all three hold what
    [execute] initialised them with; afterwards all three are the
    classifier's answers for one and the same picture, the one captured on
    tick [N].  A label of one classification is never paired with a
    rectangle of another. *)
Theorem annotations_come_from_one_frame
        (NFL : string) (clf : ImageClassifier) (delay : Z) (quit_key : ascii)
        (frame_period_s : spec_float) (q : Q) (P : Z) (script : list Tick) (k : nat) :
  period_is frame_period_s q P ->
  forallb (tick_ok quit_key) script = true ->
  (k <= List.length script)%nat ->
  let now := after_ticks NFL clf delay quit_key q script k in
  let N := Z.to_nat (P * (Z.of_nat k / P)) in
  (N = 0%nat ->
   predicted_labels now = PStr ""
   /\ rectangles now = [(0, 0, 0, 0)]
   /\ landmark_points_list now = [Some [(0, 0)]])
  /\ (N <> 0%nat ->
      (1 <= N <= k)%nat
      /\ predicted_labels now
         = PList (classify clf (CLAHE (COLOR_BGR2GRAY (fresh (picture script N)))))
      /\ rectangles now = extract_face_rectangle clf (Some (fresh (picture script N)))
      /\ landmark_points_list now
         = extract_landmark_points clf (Some (fresh (picture script N)))).
Proof.
  intros (_ & Hq & HP & _) Hok Hk.
  exact (locals_of_last_due_tick NFL clf delay quit_key q P script k Hq HP Hok Hk).
Qed.

Lemma annotations_come_from_one_frame_witness :
  rectangles (after_ticks "noface" uneven_classifier 33 "q" (model_of three_quarters)
                          (steady_script 160) 160)
  = extract_face_rectangle uneven_classifier (Some (fresh 150)).
Proof.
  apply (annotations_come_from_one_frame "noface" uneven_classifier 33 "q" three_quarters (model_of three_quarters)
           75 (steady_script 160) 160).
  - exact default_period_is.
  - apply steady_script_ok.
  - rewrite steady_script_length. lia.
  - discriminate.
Defined.

Lemma change_log_on_tick
      (NFL : string) (clf : ImageClassifier) (delay : Z) (quit_key : ascii)
      (q : Q) (script : list Tick) (k : nat) :
  Qnum q <> 0 ->
  forallb (tick_ok quit_key) script = true ->
  (1 <= k <= List.length script)%nat ->
  let r := execute NFL clf delay quit_key q script in
  let after := after_ticks NFL clf delay quit_key q script in
  printed (tick_events r k)
  = (if match annotations (after k) with
        | [] => false
        | _ :: _ => py_ne (old_txt (after (k - 1)%nat)) (predicted_labels (after k))
        end
     then [predicted_labels (after k)] else [])
  /\ old_txt (after k)
     = (if match annotations (after k) with
           | [] => false
           | _ :: _ => py_ne (old_txt (after (k - 1)%nat)) (predicted_labels (after k))
           end
        then Some (predicted_labels (after k)) else old_txt (after (k - 1)%nat)).
Proof.
  intros Hq Hok Hk. cbn zeta.
  destruct (tick_of_run NFL clf delay quit_key q Hq script k Hok Hk) as [D E].
  fold (after_ticks NFL clf delay quit_key q script (k - 1)) in D.
  fold (after_ticks NFL clf delay quit_key q script k) in D, E.
  rewrite E.
  destruct (completed_tick_calls NFL clf delay q _ _ _ D) as (_ & _ & Pr).
  split; [exact Pr|].
  exact (td_old_txt _ _ _ _ _ _ D).
Qed.

(** X9.  With a period of [P] ticks (the binary64 product
    [frame_period_s * 100] is the whole number [P]) and a classifier that
    gives the same labels for every picture and whose three answers
    always pair to a non-empty set, a run of
    ticks that all go on with a captured picture writes the log line
    exactly once, on the first due tick, however long it runs; a run that
    ends before the first due tick writes none. *)
Theorem steady_labels_are_logged_once
        (NFL : string) (clf : ImageClassifier) (delay : Z) (quit_key : ascii)
        (frame_period_s : spec_float) (q : Q) (P : Z) (labels : list string) (script : list Tick) :
  period_is frame_period_s q P ->
  (forall g, classify clf g = labels) ->
  (forall img, py_zip3 labels (extract_face_rectangle clf img)
                       (extract_landmark_points clf img) <> []) ->
  forallb (tick_ok quit_key) script = true ->
  printed (all_events (execute NFL clf delay quit_key q script))
  = if Z.of_nat (List.length script) <? P then [] else [PList labels].
Proof.
  intros (_ & Hq & HP & _) Hc Hz.
  assert (Hnz : Qnum q <> 0) by exact (proj2 (due_whole_period q P 0 Hq HP)).
  (* from the first due tick on, the labels are [labels] and are logged *)
  assert (Late : forall scr k,
             forallb (tick_ok quit_key) scr = true ->
             (k <= List.length scr)%nat -> P <= Z.of_nat k ->
             predicted_labels (after_ticks NFL clf delay quit_key q scr k)
             = PList labels
             /\ annotations (after_ticks NFL clf delay quit_key q scr k) <> []
             /\ old_txt (after_ticks NFL clf delay quit_key q scr k)
                = Some (PList labels)).
  { intros scr k Hok Hk HkP.
    destruct (locals_of_last_due_tick NFL clf delay quit_key q P scr k
                Hq HP Hok Hk) as [_ H]. cbn zeta in H.
    assert (HN : Z.to_nat (P * (Z.of_nat k / P)) <> 0%nat).
    { assert (1 <= Z.of_nat k / P) by (apply Z.div_le_lower_bound; lia). nia. }
    destruct (H HN) as (_ & L1 & L2 & L3).
    rewrite Hc in L1.
    assert (A : annotations (after_ticks NFL clf delay quit_key q scr k) <> []).
    { unfold annotations. rewrite L1, L2, L3. apply Hz. }
    split; [exact L1|]. split; [exact A|].
    rewrite <- L1.
    destruct (tick_of_run NFL clf delay quit_key q Hnz scr k Hok ltac:(lia))
      as [D _].
    destruct (tick_settles _ _ _ _ _ _ D) as [E|E]; [contradiction | exact E]. }
  induction script as [|t pre IH] using rev_ind; intros Hok.
  - cbn. destruct (0 <? P) eqn:E; [reflexivity|]. apply Z.ltb_ge in E. lia.
  - destruct (forallb_snoc _ _ _ Hok) as [Hpre _].
    rewrite (all_events_snoc NFL clf delay quit_key q Hnz pre t Hok), printed_app,
      (IH Hpre), length_app. cbn [List.length].
    set (k := S (List.length pre)).
    assert (Hk : (1 <= k <= List.length (pre ++ [t]))%nat)
      by (rewrite length_app; cbn; lia).
    destruct (change_log_on_tick NFL clf delay quit_key q (pre ++ [t]) k Hnz Hok Hk)
      as [Pr _].
    rewrite Pr. replace (List.length pre + 1)%nat with k by lia.
    destruct (Z.ltb_spec (Z.of_nat k) P) as [Hlt|Hge].
    + (* before the first due tick *)
      replace (Z.of_nat (List.length pre) <? P) with true
        by (symmetry; apply Z.ltb_lt; lia).
      destruct (quiet_prefix NFL clf delay quit_key q P Hq HP (pre ++ [t]) Hok k
                  (proj2 Hk) Hlt) as (Q1 & Q2 & Q3 & _).
      unfold annotations. now rewrite Q1, Q2, Q3.
    + destruct (Late (pre ++ [t]) k Hok (proj2 Hk) Hge) as (L & A & _).
      rewrite L. destruct (annotations _) as [|a l]; [contradiction|].
      destruct (Z.ltb_spec (Z.of_nat (List.length pre)) P) as [Hp|Hp].
      * (* the first due tick *)
        destruct (quiet_prefix NFL clf delay quit_key q P Hq HP (pre ++ [t]) Hok
                    (k - 1) ltac:(lia) ltac:(lia)) as (_ & _ & _ & Q4).
        rewrite Q4. reflexivity.
      * destruct (Late (pre ++ [t]) (k - 1)%nat Hok ltac:(lia) ltac:(lia))
          as (_ & _ & O).
        rewrite O, py_ne_same. reflexivity.
Qed.

Lemma steady_labels_are_logged_once_witness :
  printed (all_events (execute "noface" stub_classifier 33 "q" (model_of three_quarters)
                               (steady_script 160)))
  = [PList ["happy"]].
Proof.
  apply (steady_labels_are_logged_once "noface" stub_classifier 33 "q" three_quarters (model_of three_quarters) 75
           ["happy"] (steady_script 160)).
  - exact default_period_is.
  - intros g. reflexivity.
  - intros img. discriminate.
  - apply steady_script_ok.
Defined.

(** ** Degenerate periods *)

Lemma execute_body_zero_period
      (NFL : string) (clf : ImageClassifier) (q : Q) (answer : option nat)
      (s : Store) :
  Qnum q = 0 ->
  exists s',
    execute_body NFL clf q answer s = Raise ZeroDivisionError s'
    /\ out s' = out s ++ [VidCaptureRead]
    /\ frame_cnt s' = frame_cnt s + 1
    /\ predicted_labels s' = predicted_labels s
    /\ old_txt s' = old_txt s.
Proof.
  intros Hq. unfold execute_body.
  unfold bind at 1. cbn [modify].
  unfold bind at 1. unfold read_frame, emit, bind at 1. cbn [modify ret].
  unfold bind at 1. cbn [modify].
  unfold bind at 1. cbn [gets].
  unfold bind at 1.
  rewrite py_mod_is_zero_zero by exact Hq.
  eexists. split; [reflexivity|]. cbn. repeat split.
Qed.

(** X10.  With [frame_period_s = 0] the cadence test divides by zero: the
    first tick that does not quit polls, reads the camera once and then
    ends the run by [ZeroDivisionError], whether or not the capture
    delivered a picture; nothing is classified, drawn, logged or shown,
    and neither [destroyAllWindows] nor [release] is called. *)
Theorem zero_period_raises_on_the_first_tick
        (NFL : string) (clf : ImageClassifier) (delay : Z) (quit_key : ascii)
        (q : Q) (t : Tick) (rest : list Tick) :
  Qnum q = 0 ->
  pressed t <> ord quit_key ->
  let r := execute NFL clf delay quit_key q (t :: rest) in
  outcome r = Raised ZeroDivisionError
  /\ ticks r = [[WaitKey delay; VidCaptureRead]]
  /\ epilogue r = []
  /\ predicted_labels (final r) = PStr ""
  /\ old_txt (final r) = None.
Proof.
  intros Hq Hk. cbn zeta. unfold execute. cbn [execute_loop].
  apply Z.eqb_neq in Hk. rewrite Hk.
  destruct (execute_body_zero_period NFL clf q (grabbed t)
              (set_out [WaitKey delay] initial) Hq) as (s' & E & O & _ & L & T).
  rewrite E. cbn [outcome ticks epilogue final]. rewrite O, L, T.
  repeat split.
Qed.

Lemma zero_period_raises_on_the_first_tick_witness :
  outcome (execute "noface" stub_classifier 33 "q" (0 # 1) (steady_script 3))
  = Raised ZeroDivisionError.
Proof.
  apply (zero_period_raises_on_the_first_tick "noface" stub_classifier 33 "q" (0 # 1)
           {| pressed := -1; grabbed := Some 1%nat |}
           (map (fun k => {| pressed := -1; grabbed := Some k |}) (seq 2 2))).
  - reflexivity.
  - discriminate.
Defined.

Lemma py_mod_is_zero_opp (q : Q) (n : Z) (s : Store) :
  py_mod_is_zero n (- q * inject_Z 100)%Q s
  = py_mod_is_zero n (q * inject_Z 100)%Q s.
Proof.
  unfold py_mod_is_zero. destruct q as [a b]. cbn.
  destruct (Z.eqb_spec (a * 100) 0) as [E|E].
  - replace (- a * 100 =? 0) with true; [reflexivity|].
    symmetry. apply Z.eqb_eq. lia.
  - replace (- a * 100 =? 0) with false by (symmetry; apply Z.eqb_neq; lia).
    unfold ret. f_equal.
    replace (- a * 100) with (- (a * 100)) by lia.
    destruct (Z.eqb_spec ((n * Z.pos (b * 1)) mod (a * 100)) 0) as [M|M].
    + apply Z.eqb_eq. apply Z.mod_opp_r_z; assumption.
    + apply Z.eqb_neq. rewrite Z.mod_opp_r_nz by assumption.
      pose proof (Z.mod_bound_or (n * Z.pos (b * 1)) (a * 100) E). lia.
Qed.

Lemma execute_body_opp
      (NFL : string) (clf : ImageClassifier) (q : Q) (answer : option nat)
      (s : Store) :
  execute_body NFL clf (- q) answer s = execute_body NFL clf q answer s.
Proof.
  unfold execute_body.
  unfold bind at 1. unfold bind at 5. cbn [modify].
  unfold bind at 1. unfold bind at 4.
  unfold read_frame, emit. unfold bind at 1. unfold bind at 4. cbn [modify ret].
  unfold bind at 1. unfold bind at 3. cbn [modify].
  unfold bind at 1. unfold bind at 2. cbn [gets].
  unfold bind at 1. unfold bind at 1.
  now rewrite py_mod_is_zero_opp.
Qed.

(** X11.  Only the magnitude of [frame_period_s] matters: a run with a
    negative period is, call for call and store for store, the run with
    the period of the opposite sign. *)
Theorem period_sign_is_irrelevant
        (NFL : string) (clf : ImageClassifier) (delay : Z) (quit_key : ascii)
        (q : Q) (script : list Tick) :
  execute NFL clf delay quit_key (- q) script
  = execute NFL clf delay quit_key q script.
Proof.
  unfold execute. generalize initial.
  induction script as [|t script IH]; intros s.
  - reflexivity.
  - cbn [execute_loop]. rewrite execute_body_opp.
    destruct (pressed t =? ord quit_key); [reflexivity|].
    destruct (execute_body NFL clf q (grabbed t) _) as [[] s'|e s'];
      [now rewrite IH | reflexivity].
Qed.

(** ** The quit key *)

(** X12.  The tick on which the poll reads the quit key does nothing but
    tear down: the camera is not read, nothing is classified, drawn or
    shown, the locals stay as the ticks before left them, and whatever
    the script holds after that tick is never reached.  In particular a
    quit key read by the very first poll ends [execute] without a single
    frame being read. *)
Theorem quit_tick_reads_no_frame
        (NFL : string) (clf : ImageClassifier) (delay : Z) (quit_key : ascii)
        (q : Q) (pre post : list Tick) (t : Tick) :
  outcome (execute NFL clf delay quit_key q pre) = Polling ->
  pressed t = ord quit_key ->
  let r := execute NFL clf delay quit_key q (pre ++ t :: post) in
  outcome r = Returned
  /\ ticks r = ticks (execute NFL clf delay quit_key q pre)
  /\ epilogue r = [WaitKey delay; DestroyAllWindows; VidCaptureRelease]
  /\ final r = final (execute NFL clf delay quit_key q pre)
  /\ count is_read (all_events r) = List.length pre.
Proof.
  intros Hpre Hk. cbn zeta. unfold execute in *.
  rewrite execute_loop_app by exact Hpre.
  cbn [execute_loop ticks epilogue outcome final].
  apply Z.eqb_eq in Hk. rewrite Hk. cbn [ticks epilogue outcome final].
  rewrite app_nil_r. repeat split.
  unfold all_events. cbn [ticks epilogue]. rewrite count_app. cbn.
  rewrite Nat.add_0_r. clear Hk t post.
  revert Hpre. generalize initial.
  induction pre as [|t pre IH]; intros s H.
  - reflexivity.
  - cbn [execute_loop] in *.
    destruct (pressed t =? ord quit_key); [discriminate|].
    destruct (execute_body_cases NFL clf q (grabbed t) (set_out [WaitKey delay] s))
      as [(px & s' & _ & _ & E & D) | (e & s' & _ & E & _)];
      rewrite E in *; [|discriminate].
    cbn [ticks outcome List.concat] in *. rewrite count_app, (IH s' H).
    rewrite (td_out _ _ _ _ _ _ D). cbn [out set_out frame_cnt old_txt].
    rewrite !count_app.
    destruct (due q (frame_cnt s + 1)), (log_due (old_txt s) s'); reflexivity.
Qed.

Lemma quit_tick_reads_no_frame_witness :
  count is_read (all_events (execute "noface" stub_classifier 33 "q" (3 # 4)
                                     ([] ++ quit_tick :: steady_script 5)))
  = 0%nat.
Proof.
  apply (quit_tick_reads_no_frame "noface" stub_classifier 33 "q" (3 # 4)
           [] (steady_script 5) quit_tick).
  - reflexivity.
  - reflexivity.
Defined.

(** ** The entry point *)

Lemma sys_count_app (p : SysEvent -> bool) (a b : list SysEvent) :
  sys_count p (a ++ b) = (sys_count p a + sys_count p b)%nat.
Proof. unfold sys_count. now rewrite filter_app, length_app. Qed.

Lemma sys_count_detector (p : SysEvent -> bool) (l : list Event) :
  sys_count p (map Detector l) = count (fun e => p (Detector e)) l.
Proof.
  unfold sys_count, count. induction l as [|e l IH]; [reflexivity|].
  cbn. destruct (p (Detector e)); cbn; now rewrite IH.
Qed.

Lemma sys_count_detector_none (p : SysEvent -> bool) (l : list Event) :
  (forall e, p (Detector e) = false) -> sys_count p (map Detector l) = 0%nat.
Proof.
  intros Hp. unfold sys_count. induction l as [|e l IH]; [reflexivity|].
  cbn [map filter]. now rewrite Hp.
Qed.

(** X13.  [run_real_time_emotion_detector] prepares the data set exactly
    when the csv file is missing, and does so before the classifier is
    built; the camera is opened exactly once, after the classifier is
    built and before the loop's first poll; it is released by the program
    exactly when [execute] returns, so once after the quit key and never
    when an exception ends the run. *)
Theorem setup_order_and_camera_lifetime
        (NFL algorithm predictor_path dataset_csv : string)
        (images_dir : option string) (csv_exists : bool)
        (clf : ImageClassifier) (script : list Tick) :
  let res := run_real_time_emotion_detector NFL algorithm predictor_path
               dataset_csv images_dir csv_exists clf script in
  exists before after,
    fst res = before ++ ImageClassifierNew dataset_csv algorithm :: after
    /\ sys_count is_data_preparer before = (if csv_exists then 0%nat else 1%nat)
    /\ sys_count is_data_preparer after = 0%nat
    /\ sys_count is_capture_new before = 0%nat
    /\ sys_count is_capture_new after = 1%nat
    /\ (exists setup,
          after = setup ++ map Detector (all_events (execute_default NFL clf script))
          /\ Forall (fun e => forall d, e <> Detector d) setup)
    /\ sys_count is_capture_release (fst res)
       = match snd res with Returned => 1%nat | _ => 0%nat end.
Proof.
  cbn zeta. unfold run_real_time_emotion_detector. cbn [fst snd].
  destruct (teardown_counts NFL clf 33 "q" (3 # 4) script initial) as [_ R].
  cbn zeta in R. fold (execute NFL clf 33 "q" (3 # 4) script) in R.
  fold (execute_default NFL clf script) in R.
  set (loop_events := map Detector (all_events (execute_default NFL clf script))).
  set (report := if negb csv_exists then _ else _).
  set (opening := Stdout _).
  assert (Hd : forall p, (forall e, p (Detector e) = false) ->
                         sys_count p loop_events = 0%nat).
  { intros p Hp. unfold loop_events. now apply sys_count_detector_none. }
  exists ([LandMarkerNew predictor_path; IsFile dataset_csv] ++ report),
         ([opening] ++ detector_init ++ loop_events).
  split; [now rewrite <- app_assoc|].
  split; [unfold report; now destruct csv_exists|].
  split.
  { rewrite !sys_count_app, Hd by reflexivity. reflexivity. }
  split; [unfold report; now destruct csv_exists|].
  split.
  { rewrite !sys_count_app, Hd by reflexivity. reflexivity. }
  split.
  { exists ([opening] ++ detector_init). split; [now rewrite <- app_assoc|].
    repeat constructor; intros d; discriminate. }
  rewrite !sys_count_app. unfold loop_events at 1. rewrite sys_count_detector.
  change (count (fun e => is_capture_release (Detector e))
                (all_events (execute_default NFL clf script)))
    with (count is_release (all_events (execute_default NFL clf script))).
  rewrite R. unfold report. now destruct csv_exists.
Qed.

(** X14.  Run as a script, the module prints "Successfully terminated."
    exactly when [execute] returned, that is after the quit key, and it is
    then the last thing the process does; after an exception, or while
    the loop is still running, the line is not printed. *)
Theorem success_line_iff_returned
        (NFL : string) (csv_exists : bool) (clf : ImageClassifier)
        (script : list Tick) :
  let res := main NFL csv_exists clf script in
  (In (Stdout "Successfully terminated.") (fst res) <-> snd res = Returned)
  /\ snd res = outcome (execute_default NFL clf script)
  /\ (snd res = Returned ->
      exists before, fst res = before ++ [Stdout "Successfully terminated."]).
Proof.
  cbn zeta. unfold main, run_real_time_emotion_detector.
  set (r := execute_default NFL clf script).
  set (evs := _ ++ _ ++ _ ++ _ ++ map Detector (all_events r)).
  assert (Hno : ~ In (Stdout "Successfully terminated.") evs).
  { unfold evs. rewrite !in_app_iff. intros [H|[H|[H|[H|H]]]].
    - cbn in H. destruct H as [H|[H|[]]]; discriminate.
    - destruct csv_exists; cbn in H.
      + destruct H as [H|[]]; discriminate.
      + destruct H as [H|[H|[]]]; discriminate.
    - cbn in H. destruct H as [H|[H|[]]]; discriminate.
    - cbn in H. destruct H as [H|[H|[H|[]]]]; discriminate.
    - apply in_map_iff in H as (e & H & _). discriminate. }
  destruct (outcome r) eqn:Ho; cbn [fst snd].
  - split; [|split].
    + split; [reflexivity|]. intros _. apply in_app_iff. right. now left.
    + reflexivity.
    + intros _. now exists evs.
  - split; [|split]; [split; [contradiction | discriminate] | reflexivity | discriminate].
  - split; [|split]; [split; [contradiction | discriminate] | reflexivity | discriminate].
Qed.

(** ** Periods whose product by 100 is not a whole number *)

Lemma none_due_at (q : Q) (k j : nat) :
  none_due q k = true -> (1 <= j <= k)%nat -> due q (Z.of_nat j) = false.
Proof.
  unfold none_due. intros H Hj. rewrite forallb_forall in H.
  apply negb_true_iff, H, in_seq. lia.
Qed.

(** While no counter value passes the cadence test, the counter counts
    the ticks and the locals stay as [execute] initialised them. *)
Lemma quiet_while_none_due
      (NFL : string) (clf : ImageClassifier) (delay : Z) (quit_key : ascii)
      (q : Q) (script : list Tick) (k j : nat) :
  Qnum q <> 0 ->
  forallb (tick_ok quit_key) script = true ->
  (k <= List.length script)%nat ->
  none_due q k = true ->
  (j <= k)%nat ->
  let now := after_ticks NFL clf delay quit_key q script j in
  frame_cnt now = Z.of_nat j
  /\ predicted_labels now = PStr ""
  /\ rectangles now = [(0, 0, 0, 0)]
  /\ landmark_points_list now = [Some [(0, 0)]]
  /\ old_txt now = None.
Proof.
  intros Hq Hok Hk Hnone. cbn zeta.
  induction j as [|j IH]; intros Hj.
  - repeat split.
  - destruct IH as (I0 & I1 & I2 & I3 & I4); [lia|].
    destruct (tick_of_run NFL clf delay quit_key q Hq script (S j) Hok
                ltac:(lia)) as [D _].
    fold (after_ticks NFL clf delay quit_key q script (S j - 1)) in D.
    fold (after_ticks NFL clf delay quit_key q script (S j)) in D.
    replace (S j - 1)%nat with j in D by lia.
    pose proof (td_frame_cnt _ _ _ _ _ _ D) as F.
    pose proof (td_predicted_labels _ _ _ _ _ _ D) as L.
    pose proof (td_rectangles _ _ _ _ _ _ D) as R.
    pose proof (td_landmark_points_list _ _ _ _ _ _ D) as M.
    pose proof (td_old_txt _ _ _ _ _ _ D) as O.
    cbn [frame_cnt predicted_labels rectangles landmark_points_list old_txt
         set_out] in F, L, R, M, O.
    assert (Hd : due q (frame_cnt (after_ticks NFL clf delay quit_key q script j) + 1)
                 = false).
    { rewrite I0. replace (Z.of_nat j + 1) with (Z.of_nat (S j)) by lia.
      apply (none_due_at q k); [exact Hnone | lia]. }
    rewrite Hd in F, L, R, M.
    rewrite F, L, R, M, O, I0, I1, I2, I3.
    unfold log_due, annotations. rewrite L, R, M, I1, I2, I3.
    repeat split; [lia | exact I4].
Qed.

(** X15.  As long as no counter value (up to 2^53, where every integer
    is a binary64 number) passes the cadence test
    [frame_cnt % (frame_period_s * 100) == 0], the loop never classifies:
    the counter is not reset and simply counts the ticks, the annotation
    locals keep their initial values, and every tick polls, reads and
    shows the undrawn picture.  This is what happens with a period such
    as 0.07, whose binary64 product by 100 is 7.000000000000001 and not
    7: no tick of any run of feasible length is due. *)
Theorem counter_runs_on_while_nothing_is_due
        (NFL : string) (clf : ImageClassifier) (delay : Z) (quit_key : ascii)
        (frame_period_s : spec_float) (q : Q) (script : list Tick) (k j : nat) :
  model_period frame_period_s = Some q ->
  Qnum q <> 0 ->
  forallb (tick_ok quit_key) script = true ->
  (k <= List.length script)%nat ->
  Z.of_nat k <= 2 ^ 53 ->
  none_due q k = true ->
  (1 <= j <= k)%nat ->
  let r := execute NFL clf delay quit_key q script in
  let now := after_ticks NFL clf delay quit_key q script j in
  tick_events r j
  = [WaitKey delay; VidCaptureRead;
     Imshow "Emotion Detection" {| pixels := picture script j; painted := [] |}]
  /\ frame_cnt now = Z.of_nat j
  /\ predicted_labels now = PStr ""
  /\ rectangles now = [(0, 0, 0, 0)]
  /\ landmark_points_list now = [Some [(0, 0)]]
  /\ old_txt now = None.
Proof.
  intros _ Hq Hok Hk _ Hnone Hj. cbn zeta.
  destruct (quiet_while_none_due NFL clf delay quit_key q script k j Hq Hok Hk
              Hnone ltac:(lia)) as (N0 & N1 & N2 & N3 & N4).
  destruct (quiet_while_none_due NFL clf delay quit_key q script k (j - 1) Hq Hok
              Hk Hnone ltac:(lia)) as (B0 & B1 & B2 & B3 & B4).
  split; [|repeat split; assumption].
  destruct (tick_of_run NFL clf delay quit_key q Hq script j Hok ltac:(lia))
    as [D E].
  fold (after_ticks NFL clf delay quit_key q script (j - 1)) in D.
  fold (after_ticks NFL clf delay quit_key q script j) in D, E.
  rewrite E, (td_out _ _ _ _ _ _ D). cbn [out set_out frame_cnt old_txt].
  rewrite B0. replace (Z.of_nat (j - 1) + 1) with (Z.of_nat j) by lia.
  rewrite (none_due_at q k j Hnone Hj).
  unfold log_due, annotations. rewrite N1, N2, N3. reflexivity.
Qed.

Lemma counter_runs_on_while_nothing_is_due_witness :
  frame_cnt (after_ticks "noface" stub_classifier 33 "q" (model_of seven_hundredths)
                         (steady_script 21) 21)
  = 21.
Proof.
  apply (counter_runs_on_while_nothing_is_due "noface" stub_classifier 33 "q"
           seven_hundredths (model_of seven_hundredths) (steady_script 21) 21 21).
  - vm_compute. reflexivity.
  - vm_compute. discriminate.
  - apply steady_script_ok.
  - rewrite steady_script_length. lia.
  - lia.
  - vm_compute. reflexivity.
  - lia.
Defined.
